(** * python-sispm: the Gembird SiS-PM outlet protocol layer (sispm.py)

    A shallow embedding of [sispm.py].  The USB host layer (pyusb's
    [find], [ctrl_transfer], [set_configuration], [dispose_resources])
    is an external collaborator: it is a parameter of the development, a
    state machine of which nothing is assumed, and whose calls may raise
    [USBError] or an exception of any other class.  Every call made to
    it, and every [sleep], is emitted on a trace, the way a mock bus
    records the calls it receives.

    A method of [OutletDevice] is a function from the state of the
    session to an outcome (a value or a raised exception), the next state
    and the emitted trace.  The descriptor fields of a handle
    ([idProduct], [manufacturer], ...) are read as plain attributes, and
    each handle of an enumeration has a driver state of its own. *)

From Stdlib Require Import ZArith String Ascii List Lia Bool.
From Stdlib Require Import Floats.SpecFloat.
From stdpp Require Import gmap strings list fin_maps.

Local Open Scope Z_scope.

(** ** Python values that can reach the [num] parameter *)

(** A float is an IEEE binary64 value, as [spec_float] at precision 53. *)
Definition prec64 : Z := 53.
Definition emax64 : Z := 1024.

Inductive pyval :=
| PyInt (z : Z)
| PyBool (b : bool)
| PyFloat (f : spec_float)
| PyStr (s : string)
| PyNone.

(** [1.0] and [3.0] in binary64. *)
Definition float_one : spec_float := S754_finite false 4503599627370496 (-52).
Definition float_three : spec_float := S754_finite false 6755399441055744 (-51).

Definition Z_of_bool (b : bool) : Z := if b then 1 else 0.

(** Python compares an int and a float by their exact mathematical value. *)
Definition float_eq_int (f : spec_float) (z : Z) : bool :=
  match f with
  | S754_zero _ => z =? 0
  | S754_finite s m e =>
      let mz := if s then Z.neg m else Z.pos m in
      if 0 <=? e then z =? mz * 2 ^ e
      else (mz mod 2 ^ (- e) =? 0) && (z =? mz / 2 ^ (- e))
  | _ => false
  end.

(** [a == b] *)
Definition py_eq (a b : pyval) : bool :=
  match a, b with
  | PyInt x, PyInt y => x =? y
  | PyInt x, PyBool y => x =? Z_of_bool y
  | PyBool x, PyInt y => Z_of_bool x =? y
  | PyBool x, PyBool y => Bool.eqb x y
  | PyFloat f, PyInt y => float_eq_int f y
  | PyInt x, PyFloat g => float_eq_int g x
  | PyFloat f, PyBool y => float_eq_int f (Z_of_bool y)
  | PyBool x, PyFloat g => float_eq_int g (Z_of_bool x)
  | PyFloat f, PyFloat g => SFeqb f g
  | PyStr s, PyStr t => if string_dec s t then true else false
  | PyNone, PyNone => true
  | _, _ => false
  end.

(** [num in tup] for a tuple of ints *)
Definition py_in (num : pyval) (tup : list Z) : bool :=
  existsb (fun i => py_eq num (PyInt i)) tup.

(** ** Exceptions *)

Inductive exn :=
| USBError (errno : Z)
| OutletException (outlet : pyval)
| KeyError (key : Z)
| TypeError
| ValueError
| IndexError
| OtherError (name : string).

Definition is_USBError (e : exn) : bool :=
  match e with USBError _ => true | _ => false end.

Inductive Res (A : Type) :=
| Ok (a : A)
| Raise (e : exn).
Arguments Ok {A} a.
Arguments Raise {A} e.

(** ** Constants of the module *)

Definition VENDOR : Z := 0x04B4.

Definition MSISPM_OLD : Z := 0xFD10.
Definition SISPM : Z := 0xFD11.
Definition MSISPM_FLASH : Z := 0xFD12.
Definition MSISPM_FLASH_NEW : Z := 0xFD13.

Definition DEVICE_TYPES : gmap Z (list Z * string) :=
  <[MSISPM_OLD := ([1], "1-socket mSiS-PM")]>
  (<[SISPM := ([1; 2; 3; 4], "4-socket SiS-PM")]>
  (<[MSISPM_FLASH := ([1], "1-socket mSiS-PM")]>
  (<[MSISPM_FLASH_NEW := ([1; 2; 3; 4], "4-socket SiS-PM")]> ∅))).

Definition TRIES : nat := 5.

(** ** The USB host layer *)

(** The six arguments of [ctrl_transfer]; [req_data] is the bytearray. *)
Record Request := mkRequest {
  req_type : Z;
  req_code : Z;
  req_value : Z;
  req_index : Z;
  req_data : list Z;
  req_timeout : Z
}.

(** The driver is any state machine over a state [D]: a call returns the
    next state and either a value or a raised exception (of any class). *)
Record Driver (D : Type) := mkDriver {
  drv_set_configuration : D -> D * Res unit;
  drv_ctrl_transfer : D -> Request -> D * Res (list Z);
  drv_dispose_resources : D -> D * Res unit
}.
Arguments drv_set_configuration {D} _ _.
Arguments drv_ctrl_transfer {D} _ _ _.
Arguments drv_dispose_resources {D} _ _.

(** What the bus sees, in order. *)
Inductive Event :=
| EvSetConfiguration (o : Res unit)
| EvTransfer (r : Request) (o : Res (list Z))
| EvSleep (ms : Z)
| EvDispose (o : Res unit).

(** An [OutletDevice]: the handle [self.device] (its descriptor fields and
    the driver's state for it) and the flag [self.autodispose]. *)
Record World (D : Type) := mkWorld {
  dev : D;
  manufacturer : string;
  product : string;
  idVendor : Z;
  idProduct : Z;
  bus : Z;
  address : Z;
  autodispose_flag : bool
}.
Arguments dev {D} _.
Arguments manufacturer {D} _.
Arguments product {D} _.
Arguments idVendor {D} _.
Arguments idProduct {D} _.
Arguments bus {D} _.
Arguments address {D} _.
Arguments autodispose_flag {D} _.

Definition set_dev {D} (w : World D) (s : D) : World D :=
  mkWorld D s (manufacturer w) (product w) (idVendor w) (idProduct w)
          (bus w) (address w) (autodispose_flag w).

Definition set_autodispose {D} (w : World D) (b : bool) : World D :=
  mkWorld D (dev w) (manufacturer w) (product w) (idVendor w) (idProduct w)
          (bus w) (address w) b.

(** ** The monad of methods: state, exceptions and the emitted trace *)

Record Run (D A : Type) := mkRun {
  out : Res A;
  st : World D;
  tr : list Event
}.
Arguments mkRun {D A} _ _ _.
Arguments out {D A} _.
Arguments st {D A} _.
Arguments tr {D A} _.

Definition M (D A : Type) : Type := World D -> Run D A.

Definition ret {D A} (a : A) : M D A := fun w => mkRun (Ok a) w [].
Definition raise {D A} (e : exn) : M D A := fun w => mkRun (Raise e) w [].
Definition lift {D A} (r : Res A) : M D A := fun w => mkRun r w [].

Definition bind {D A B} (m : M D A) (f : A -> M D B) : M D B := fun w =>
  let r := m w in
  match out r with
  | Ok a => let r' := f a (st r) in mkRun (out r') (st r') (tr r ++ tr r')
  | Raise e => mkRun (Raise e) (st r) (tr r)
  end.

Notation "'do' x <- m ; k" := (bind m (fun x => k))
  (at level 10, x name, m at level 100, k at level 200).
Notation "'perform' m ; k" := (bind m (fun _ => k))
  (at level 10, m at level 100, k at level 200).

(** [try: m  except USBError: h] *)
Definition try_except_USBError {D A} (m : M D A) (h : Z -> M D A) : M D A :=
  fun w =>
    let r := m w in
    match out r with
    | Raise (USBError n) =>
        let r' := h n (st r) in mkRun (out r') (st r') (tr r ++ tr r')
    | _ => r
    end.

(** ** Built-in operations on the data *)

(** [v * 3] *)
Definition py_mul3 (v : pyval) : Res pyval :=
  match v with
  | PyInt z => Ok (PyInt (z * 3))
  | PyBool b => Ok (PyInt (Z_of_bool b * 3))
  | PyFloat f => Ok (PyFloat (SFmul prec64 emax64 f float_three))
  | PyStr s => Ok (PyStr (s +:+ s +:+ s))
  | PyNone => Raise TypeError
  end.

(** [k | v] for an int [k] *)
Definition py_or (k : Z) (v : pyval) : Res Z :=
  match v with
  | PyInt z => Ok (Z.lor k z)
  | PyBool b => Ok (Z.lor k (Z_of_bool b))
  | _ => Raise TypeError
  end.

(** [bytearray(n)] *)
Definition bytearray (n : nat) : list Z := repeat 0 n.

(** [b[i] = v]: the index is checked, then [v] must be an int in
    [range(256)]. *)
Definition bytearray_setitem (b : list Z) (i : nat) (v : pyval)
  : Res (list Z) :=
  if (i <? length b)%nat then
    match v with
    | PyInt z =>
        if (0 <=? z) && (z <? 256) then Ok (<[i := z]> b) else Raise ValueError
    | PyBool x => Ok (<[i := Z_of_bool x]> b)
    | _ => Raise TypeError
    end
  else Raise IndexError.

(** [r[i]] on what [_usb_command] returned ([None] is not subscriptable) *)
Definition py_getitem (r : option (list Z)) (i : nat) : Res Z :=
  match r with
  | None => Raise TypeError
  | Some l => match l !! i with Some x => Ok x | None => Raise IndexError end
  end.

(** [hex(n)] *)
Definition hex_digit (d : Z) : ascii :=
  nth (Z.to_nat d) (list_ascii_of_string "0123456789abcdef") "0"%char.

Fixpoint hex_digits (fuel : nat) (n : Z) (acc : string) : string :=
  match fuel with
  | O => acc
  | S fuel' =>
      let acc' := String (hex_digit (n mod 16)) acc in
      if n / 16 =? 0 then acc' else hex_digits fuel' (n / 16) acc'
  end.

Definition hex (n : Z) : string :=
  let a := Z.abs n in
  let ds := hex_digits (S (Z.to_nat (Z.log2 a))) a "" in
  if n <? 0 then "-0x" +:+ ds else "0x" +:+ ds.

(** [s[n:]] *)
Fixpoint str_from (n : nat) (s : string) : string :=
  match n, s with
  | O, _ => s
  | S n', String _ s' => str_from n' s'
  | S _, EmptyString => EmptyString
  end.

(** [s.zfill(width)]: zeros go after a leading sign. *)
Definition zeros (n : nat) : string := string_of_list_ascii (repeat "0"%char n).

Definition zfill (width : nat) (s : string) : string :=
  let pad := zeros (width - String.length s) in
  match s with
  | String c s' =>
      if (Ascii.eqb c "+" || Ascii.eqb c "-")%bool then String c (pad +:+ s')
      else pad +:+ s
  | EmptyString => pad
  end.

(** What a public method returns: a bool, or the dict of [num == 'all']. *)
Inductive pyresult :=
| RBool (b : bool)
| RDict (d : gmap Z bool).

(** The dict returned by the [info] property. *)
Record Info := mkInfo {
  info_manufacturer : string;
  info_product : string;
  info_idVendor : string;
  info_idProduct : string;
  info_serial : string;
  info_devicetype : string;
  info_outlets : list Z;
  info_bus : Z;
  info_address : Z
}.

(** ** The module, over an arbitrary driver *)

Section Sispm.

Context {D : Type} (drv : Driver D).

(** *** Calls into the host layer *)

(** [self.device.set_configuration()] *)
Definition set_configuration : M D unit := fun w =>
  let p := drv_set_configuration drv (dev w) in
  mkRun (snd p) (set_dev w (fst p)) [EvSetConfiguration (snd p)].

(** [self.device.ctrl_transfer(req_type, req, value, index, bytes, timeout)] *)
Definition ctrl_transfer (r : Request) : M D (list Z) := fun w =>
  let p := drv_ctrl_transfer drv (dev w) r in
  mkRun (snd p) (set_dev w (fst p)) [EvTransfer r (snd p)].

(** [dispose_resources(self.device)] *)
Definition dispose_resources : M D unit := fun w =>
  let p := drv_dispose_resources drv (dev w) in
  mkRun (snd p) (set_dev w (fst p)) [EvDispose (snd p)].

(** [sleep(.05)], in milliseconds *)
Definition sleep (ms : Z) : M D unit := fun w => mkRun (Ok tt) w [EvSleep ms].

(** Reading an attribute of the handle, [self.device.x] *)
Definition attr {A} (x : World D -> A) : M D A := fun w => mkRun (Ok (x w)) w [].

(** *** The decorator *)

(** [try: m  finally: fin]: [fin] runs on every exit of [m]; an exception
    leaving [fin] replaces the way [m] ended. *)
Definition try_finally {A} (m : M D A) (fin : M D unit) : M D A := fun w =>
  let r := m w in
  let f := fin (st r) in
  match out f with
  | Ok _ => mkRun (out r) (st f) (tr r ++ tr f)
  | Raise e => mkRun (Raise e) (st f) (tr r ++ tr f)
  end.

(** The [finally] clause of the wrapper. *)
Definition release_after_call : M D unit :=
  try_except_USBError
    (fun w => (if autodispose_flag w then dispose_resources else ret tt) w)
    (fun _ => ret tt).

(** [autodispose(func)] *)
Definition autodispose {A} (func : M D A) : M D A :=
  try_finally func release_after_call.

(** *** OutletDevice *)

(** [__init__] *)
Definition OutletDevice_init : M D unit :=
  perform set_configuration;
  fun w => mkRun (Ok tt) (set_autodispose w true) [].

(** One round of the loop of [_usb_command], for the loop variable [i]:
    [Some v] when the function returns [v], [None] when the loop goes on. *)
Definition usb_command_round (i : nat) (r : Request)
  : M D (option (list Z)) :=
  try_except_USBError
    (do v <- ctrl_transfer r; ret (Some v))
    (fun n => if (i =? 0)%nat then raise (USBError n)
              else perform sleep 50; ret None).

(** The [for] loop over the values of [i]; a loop that runs out makes the
    function return [None]. *)
Fixpoint usb_command_loop (range : list nat) (r : Request)
  : M D (option (list Z)) :=
  match range with
  | [] => ret None
  | i :: range' =>
      do x <- usb_command_round i r;
      match x with
      | Some v => ret (Some v)
      | None => usb_command_loop range' r
      end
  end.

(** [range(TRIES-1, -1, -1)] *)
Definition tries_range : list nat := rev (seq 0 TRIES).

Definition _usb_command (r : Request) : M D (option (list Z)) :=
  usb_command_loop tries_range r.

(** The body of [_get_serial]. *)
Definition serial_request : Request :=
  mkRequest 0xa1 0x01 (Z.lor (Z.shiftl 0x03 8) 1) 0 (bytearray 6) 500.

Definition _get_serial : M D (option (list Z)) :=
  autodispose (_usb_command serial_request).

Definition _status (num : pyval) : M D bool :=
  do t <- lift (py_mul3 num);
  do bytes <- lift (bytearray_setitem (bytearray 6) 0 t);
  do t' <- lift (py_mul3 num);
  do value <- lift (py_or (Z.shiftl 0x03 8) t');
  do r <- _usb_command (mkRequest (Z.lor 0x21 0x80) 0x01 value 0 bytes 500);
  do b <- lift (py_getitem r 1);
  ret (negb (b =? 0)).

Definition _on (num : pyval) : M D bool :=
  do s <- _status num;
  if s then ret true
  else
    do t <- lift (py_mul3 num);
    do bytes <- lift (bytearray_setitem (bytearray 6) 0 t);
    do bytes <- lift (bytearray_setitem bytes 1 (PyInt 0x03));
    do t' <- lift (py_mul3 num);
    do value <- lift (py_or (Z.shiftl 0x03 8) t');
    perform _usb_command (mkRequest 0x21 0x09 value 0 bytes 500);
    _status num.

Definition _off (num : pyval) : M D bool :=
  do s <- _status num;
  if negb s then ret true
  else
    do t <- lift (py_mul3 num);
    do bytes <- lift (bytearray_setitem (bytearray 6) 0 t);
    do t' <- lift (py_mul3 num);
    do value <- lift (py_or (Z.shiftl 0x03 8) t');
    perform _usb_command (mkRequest 0x21 0x09 value 0 bytes 500);
    do s' <- _status num;
    ret (negb s').

Definition dispose : M D unit := dispose_resources.

(** [DEVICE_TYPES[self.device.idProduct]] *)
Definition device_type : M D (list Z * string) :=
  do pid <- attr idProduct;
  match DEVICE_TYPES !! pid with
  | Some x => ret x
  | None => raise (KeyError pid)
  end.

(** The [outlets] property. *)
Definition outlets : M D (list Z) :=
  do x <- device_type; ret (fst x).

(** [':'.join(hex(i)[2:].zfill(2) for i in bs)] *)
Definition format_serial (bs : list Z) : string :=
  String.concat ":" (map (fun i => zfill 2 (str_from 2 (hex i))) bs).

(** The [serial] property ([None] is not iterable). *)
Definition serial : M D string :=
  do r <- _get_serial;
  match r with
  | Some bs => ret (format_serial bs)
  | None => raise TypeError
  end.

(** The [info] property; the dict display evaluates its values in order. *)
Definition info : M D Info :=
  do manufacturer_ <- attr manufacturer;
  do product_ <- attr product;
  do vid <- attr idVendor;
  do idVendor_ <- ret ("0x" +:+ zfill 4 (str_from 2 (hex vid)));
  do pid <- attr idProduct;
  do idProduct_ <- ret ("0x" +:+ zfill 4 (str_from 2 (hex pid)));
  do serial_ <- serial;
  do devicetype_ <- device_type;
  do outlets_ <- outlets;
  do bus_ <- attr bus;
  do address_ <- attr address;
  ret (mkInfo manufacturer_ product_ idVendor_ idProduct_ serial_
              (snd devicetype_) outlets_ bus_ address_).

(** [dict((i, f(i)) for i in keys)]: the pairs are produced in the order of
    [keys] and inserted as they come. *)
Fixpoint dict_of (f : pyval -> M D bool) (keys : list Z) (acc : gmap Z bool)
  : M D (gmap Z bool) :=
  match keys with
  | [] => ret acc
  | i :: keys' => do b <- f (PyInt i); dict_of f keys' (<[i := b]> acc)
  end.

(** The four public methods: [*_func] is the function the decorator
    receives. *)
Definition status_func (num : pyval) : M D pyresult :=
  do outs <- outlets;
  if py_in num outs then do b <- _status num; ret (RBool b)
  else if py_eq num (PyStr "all") then
    do outs' <- outlets;
    do d <- dict_of _status outs' ∅;
    ret (RDict d)
  else raise (OutletException num).

Definition on_func (num : pyval) : M D pyresult :=
  do outs <- outlets;
  if py_in num outs then do b <- _on num; ret (RBool b)
  else if py_eq num (PyStr "all") then
    do outs' <- outlets;
    do d <- dict_of _on outs' ∅;
    ret (RDict d)
  else raise (OutletException num).

Definition off_func (num : pyval) : M D pyresult :=
  do outs <- outlets;
  if py_in num outs then do b <- _off num; ret (RBool b)
  else if py_eq num (PyStr "all") then
    do outs' <- outlets;
    do d <- dict_of _off outs' ∅;
    ret (RDict d)
  else raise (OutletException num).

(** [self._off(i) if self._status(i) else self._on(i)] *)
Definition toggle_expr (i : pyval) : M D bool :=
  do s <- _status i; if s then _off i else _on i.

Definition toggle_func (num : pyval) : M D pyresult :=
  do outs <- outlets;
  if py_in num outs then do b <- toggle_expr num; ret (RBool b)
  else if py_eq num (PyStr "all") then
    do outs' <- outlets;
    do d <- dict_of toggle_expr outs' ∅;
    ret (RDict d)
  else raise (OutletException num).

Definition status (num : pyval) : M D pyresult := autodispose (status_func num).
Definition on (num : pyval) : M D pyresult := autodispose (on_func num).
Definition off (num : pyval) : M D pyresult := autodispose (off_func num).
Definition toggle (num : pyval) : M D pyresult := autodispose (toggle_func num).

(** *** The directory *)

(** [get_devices(products)] over the handles [found] that
    [find(idVendor=VENDOR, find_all=True)] enumerates.  The generator
    passes over a handle whose product id is not in [products]; the handles
    it keeps are listed here in order, and [OutletDevice(device)] is run on
    one of them only when the consumer asks for the next session. *)
Definition get_devices (products : list Z) (found : list (World D))
  : list (World D) :=
  List.filter (fun device => existsb (Z.eqb (idProduct device)) products) found.

(** The outcome of [get_device_by_serial], and the traces of the handles
    it has touched, in the order of the enumeration. *)
Record Scan := mkScan {
  scan_out : Res (option (World D));
  scan_traces : list (list Event)
}.

(** [for device in get_devices(products): if device.serial == serial:
    return device]; the end of the loop returns [None]. *)
Fixpoint scan_sessions (serial_ : string) (pending : list (World D)) : Scan :=
  match pending with
  | [] => mkScan (Ok None) []
  | handle :: pending' =>
      let r := (perform OutletDevice_init; serial) handle in
      match out r with
      | Ok s =>
          if String.eqb s serial_ then mkScan (Ok (Some (st r))) [tr r]
          else
            let k := scan_sessions serial_ pending' in
            mkScan (scan_out k) (tr r :: scan_traces k)
      | Raise e => mkScan (Raise e) [tr r]
      end
  end.

Definition get_device_by_serial (serial_ : string) (products : list Z)
    (found : list (World D)) : Scan :=
  scan_sessions serial_ (get_devices products found).

End Sispm.

Arguments mkScan {D} _ _.
Arguments scan_out {D} _.
Arguments scan_traces {D} _.

(** The default of the [products] parameter. *)
Definition default_products : list Z :=
  [MSISPM_OLD; SISPM; MSISPM_FLASH; MSISPM_FLASH_NEW].

(** ** Reading a trace *)

Definition is_transfer (e : Event) : bool :=
  match e with EvTransfer _ _ => true | _ => false end.
Definition is_sleep (e : Event) : bool :=
  match e with EvSleep _ => true | _ => false end.
Definition is_release (e : Event) : bool :=
  match e with EvDispose _ => true | _ => false end.

(** The control transfers of a trace, in order. *)
Definition transfers (t : list Event) : list Event := List.filter is_transfer t.
(** How many times the device was released. *)
Definition releases (t : list Event) : nat := length (List.filter is_release t).
Definition delays (t : list Event) : nat := length (List.filter is_sleep t).

(** The attempted host-to-device (write) transfers of a trace. *)
Definition is_write (e : Event) : bool :=
  match e with EvTransfer r _ => req_code r =? 0x09 | _ => false end.
Definition writes (t : list Event) : nat := length (List.filter is_write t).

(** The requests of the three primitives for outlet [n]. *)
Definition status_request (n : Z) : Request :=
  mkRequest 0xa1 0x01 (Z.lor 0x0300 (n * 3)) 0 [n * 3; 0; 0; 0; 0; 0] 500.
Definition write_request (n : Z) (turn_on : bool) : Request :=
  mkRequest 0x21 0x09 (Z.lor 0x0300 (n * 3)) 0
            [n * 3; if turn_on then 0x03 else 0; 0; 0; 0; 0] 500.

(** The trace of one run of the executor that failed with the transport
    errors [errs] and then ended with the attempt [final]. *)
Definition retry_trace (r : Request) (errs : list Z) (final : Res (list Z))
  : list Event :=
  flat_map (fun n => [EvTransfer r (Raise (USBError n)); EvSleep 50]) errs
  ++ [EvTransfer r final].

(** [t] is the trace of one transfer of [r] through the executor. *)
Definition one_transfer (r : Request) (t : list Event) : Prop :=
  exists errs final, (length errs <= 4)%nat /\ t = retry_trace r errs final.

(** How a run of the executor ends when its last attempt ended with
    [final]. *)
Definition as_return (final : Res (list Z)) : Res (option (list Z)) :=
  match final with Ok v => Ok (Some v) | Raise e => Raise e end.

(** [bool(reply[1])] *)
Definition status_of_reply (reply : option (list Z)) : Res bool :=
  match py_getitem reply 1 with
  | Ok b => Ok (negb (b =? 0))
  | Raise e => Raise e
  end.

(** What the driver answers to [n] successive transfers of [r] from the
    state [d], and the state it is left in. *)
Fixpoint answers {D} (drv : Driver D) (d : D) (r : Request) (n : nat)
  : list (Res (list Z)) * D :=
  match n with
  | O => ([], d)
  | S n' =>
      let p := drv_ctrl_transfer drv d r in
      let q := answers drv (fst p) r n' in
      (snd p :: fst q, snd q)
  end.

(** The four public methods, to speak of them together. *)
Inductive method := Status | On | Off | Toggle.

Definition single {D} (drv : Driver D) (m : method) : pyval -> M D bool :=
  match m with
  | Status => _status drv
  | On => _on drv
  | Off => _off drv
  | Toggle => toggle_expr drv
  end.

Definition func_of {D} (drv : Driver D) (m : method) : pyval -> M D pyresult :=
  match m with
  | Status => status_func drv
  | On => on_func drv
  | Off => off_func drv
  | Toggle => toggle_func drv
  end.

Definition public {D} (drv : Driver D) (m : method) : pyval -> M D pyresult :=
  match m with
  | Status => status drv
  | On => on drv
  | Off => off drv
  | Toggle => toggle drv
  end.

(** A method that leaves the handle's descriptor and the flag alone and
    never releases the device itself. *)
Definition quiet {D A} (m : M D A) : Prop :=
  forall w,
    autodispose_flag (st (m w)) = autodispose_flag w /\
    idProduct (st (m w)) = idProduct w /\
    releases (tr (m w)) = 0%nat.

(** What the decorator adds to the run of [func] in the call [op]: with the
    flag on, one release, last, and the outcome of [func] unless the
    release raises something else than a [USBError]; with the flag off,
    nothing. *)
Definition released_once {D A} (drv : Driver D) (func op : M D A)
    (w : World D) : Prop :=
  let r := func w in
  let p := drv_dispose_resources drv (dev (st r)) in
  if autodispose_flag w then
    tr (op w) = tr r ++ [EvDispose (snd p)] /\
    releases (tr (op w)) = 1%nat /\
    st (op w) = set_dev (st r) (fst p) /\
    autodispose_flag (st (op w)) = true /\
    out (op w) = match snd p with
                 | Ok _ | Raise (USBError _) => out r
                 | Raise e => Raise e
                 end
  else
    op w = r /\ releases (tr (op w)) = 0%nat /\
    autodispose_flag (st (op w)) = false.

(** The runs of [f] on the outlets [keys] one after the other, each from
    the state the one before left. *)
Fixpoint each_outlet {D} (f : pyval -> M D bool) (keys : list Z) (w : World D)
  : list (Run D bool) :=
  match keys with
  | [] => []
  | i :: keys' => let r := f (PyInt i) w in r :: each_outlet f keys' (st r)
  end.

(** The state in which a series of runs that started in [w] ends. *)
Definition world_after {D A} (runs : list (Run D A)) (w : World D) : World D :=
  fold_left (fun _ r => st r) runs w.

(** The serial as the specification words it: each byte as two lowercase
    hexadecimal digits, the bytes joined by colons. *)
Definition two_hex_digits (b : Z) : string :=
  String (hex_digit (b / 16)) (String (hex_digit (b mod 16)) EmptyString).

Definition colon_hex (bs : list Z) : string :=
  String.concat ":" (map two_hex_digits bs).

(** A handle is opened and its serial read: [OutletDevice(device).serial] *)
Definition read_serial_of {D} (drv : Driver D) : M D string :=
  perform OutletDevice_init drv; serial drv.

(** The serial read from the handle [h] is not [serial_]. *)
Definition reads_other {D} (drv : Driver D) (serial_ : string) (h : World D)
  : Prop :=
  exists x, out (read_serial_of drv h) = Ok x /\ x <> serial_.

(** The [finally] clause of the wrapper ends without an exception: the
    flag is off, or the release succeeds or fails with a [USBError]. *)
Definition release_passes {D} (drv : Driver D) (w : World D) : Prop :=
  out (release_after_call drv w) = Ok tt.

(** ** A mock device *)

Module Mock.

Record state := mkState {
  failures : nat;          (* transfers that will still fail *)
  powered : list Z;        (* the outlets that are on *)
  stuck : bool;            (* writes are acknowledged but change nothing *)
  release : Res unit;      (* what releasing the device does *)
  serial_bytes : list Z
}.

Definition set_failures (s : state) (k : nat) : state :=
  mkState k (powered s) (stuck s) (release s) (serial_bytes s).
Definition set_powered (s : state) (l : list Z) : state :=
  mkState (failures s) l (stuck s) (release s) (serial_bytes s).

Definition is_on (s : state) (n : Z) : bool := existsb (Z.eqb n) (powered s).

Definition transfer (s : state) (r : Request) : state * Res (list Z) :=
  match failures s with
  | S k => (set_failures s k, Raise (USBError 110))
  | O =>
      if req_code r =? 0x09 then
        let n := nth 0 (req_data r) 0 / 3 in
        let others := List.filter (fun m => negb (m =? n)) (powered s) in
        let powered' :=
          if nth 1 (req_data r) 0 =? 0 then others else n :: others in
        (if stuck s then s else set_powered s powered', Ok (req_data r))
      else if Z.land (req_value r) 0xff =? 1 then (s, Ok (serial_bytes s))
      else
        let n := Z.land (req_value r) 0xff / 3 in
        (s, Ok [n * 3; Z_of_bool (is_on s n); 0; 0; 0; 0])
  end.

Definition driver : Driver state :=
  mkDriver state (fun s => (s, Ok tt)) transfer (fun s => (s, release s)).

Definition serial0 : list Z := [0x1A; 0x02; 0xFF; 0x00; 0x0B; 0x9C].

(** A handle with product id [pid] on a device in state [s]. *)
Definition handle (pid : Z) (s : state) : World state :=
  mkWorld state s "Gembird" "SiS-PM" VENDOR pid 1 2 true.

Definition idle : state := mkState 0 [] false (Ok tt) serial0.

End Mock.

(** ** Further vocabulary *)

(** Every event that [m] puts on the trace satisfies [P]. *)
Definition emits {D A} (P : Event -> Prop) (m : M D A) : Prop :=
  forall w, Forall P (tr (m w)).

(** What a method of a session may put on the bus: a transfer has index 0,
    a timeout of 500 ms and a buffer of six bytes, and is a read
    ([0xa1], [0x01]) or a write ([0x21], [0x09]); a delay lasts 50 ms; the
    device is never configured again. *)
Definition protocol_event (e : Event) : Prop :=
  match e with
  | EvTransfer r _ =>
      req_index r = 0 /\ req_timeout r = 500 /\ length (req_data r) = 6%nat /\
      ((req_type r = 0xa1 /\ req_code r = 0x01) \/
       (req_type r = 0x21 /\ req_code r = 0x09))
  | EvSleep ms => ms = 50
  | EvSetConfiguration _ => False
  | EvDispose _ => True
  end.

Definition not_write (e : Event) : Prop := is_write e = false.

(** [m] goes through the executor at most [k] times: at most [5 * k]
    attempts and [4 * k] delays. *)
Definition traffic {D A} (k : nat) (m : M D A) : Prop :=
  forall w,
    (length (transfers (tr (m w))) <= 5 * k)%nat /\
    (delays (tr (m w)) <= 4 * k)%nat.

(** How many times a method goes through the executor for one outlet. *)
Definition calls (m : method) : nat :=
  match m with
  | Status => 1
  | On | Off => 3
  | Toggle => 4
  end.

(** The runs of [each_outlet] up to and including the first that raises. *)
Fixpoint until_raise {D A} (runs : list (Run D A)) : list (Run D A) :=
  match runs with
  | [] => []
  | r :: runs' =>
      match out r with
      | Ok _ => r :: until_raise runs'
      | Raise _ => [r]
      end
  end.

(** The first exception among the outcomes of [runs], if there is one. *)
Fixpoint first_raise {D A} (runs : list (Run D A)) : option exn :=
  match runs with
  | [] => None
  | r :: runs' =>
      match out r with
      | Ok _ => first_raise runs'
      | Raise e => Some e
      end
  end.

(** Four lowercase hexadecimal digits. *)
Definition four_hex_digits (v : Z) : string :=
  String (hex_digit (v / 4096))
    (String (hex_digit (v / 256 mod 16))
       (String (hex_digit (v / 16 mod 16))
          (String (hex_digit (v mod 16)) EmptyString))).

(** A script of public calls made one after the other on a session, each
    from the state the call before has left, whether it returned or
    raised. *)
Fixpoint run_calls {D} (drv : Driver D) (script : list (method * pyval))
    (w : World D) : list (Run D pyresult) :=
  match script with
  | [] => []
  | (m, num) :: script' =>
      let r := public drv m num w in r :: run_calls drv script' (st r)
  end.

(** The releases of a series of runs. *)
Definition total_releases {D A} (runs : list (Run D A)) : nat :=
  list_sum (map (fun r => releases (tr r)) runs).

(** A value that is not an int, not a bool and not the string ['all']. *)
Definition never_an_outlet (num : pyval) : Prop :=
  match num with
  | PyInt _ | PyBool _ => False
  | PyStr s => s <> "all"%string
  | PyFloat _ | PyNone => True
  end.

(** The descriptor fields of the handle of a session. *)
Definition descriptor {D} (w : World D) : string * string * Z * Z * Z * Z :=
  (manufacturer w, product w, idVendor w, idProduct w, bus w, address w).

(** A method that leaves the descriptor fields alone. *)
Definition keeps_descriptor {D A} (m : M D A) : Prop :=
  forall w, descriptor (st (m w)) = descriptor w.

(** The values of a hexadecimal digit. *)
Definition hex_values : list Z :=
  [0; 1; 2; 3; 4; 5; 6; 7; 8; 9; 10; 11; 12; 13; 14; 15].

(** ** A device that does not work *)

Module Broken.

(** Configuring and releasing fail with a transport error; a transfer
    fails with an error of another class. *)
Definition driver : Driver unit :=
  mkDriver unit
    (fun s => (s, Raise (USBError 19)))
    (fun s _ => (s, Raise (OtherError "NotImplementedError")))
    (fun s => (s, Raise (USBError 19))).

Definition handle (flag : bool) : World unit :=
  mkWorld unit tt "Gembird" "SiS-PM" VENDOR SISPM 1 2 flag.

End Broken.

(** * Properties *)

(** ** The monad *)

Lemma run_eta {D A} (r : Run D A) : mkRun (out r) (st r) (tr r) = r.
Proof. destruct r; reflexivity. Qed.

Lemma bind_lift_Ok {D A B} (a : A) (f : A -> M D B) (w : World D) :
  bind (lift (Ok a)) f w = f a w.
Proof. unfold bind, lift; simpl. apply run_eta. Qed.

Lemma bind_ret {D A B} (a : A) (f : A -> M D B) (w : World D) :
  bind (ret a) f w = f a w.
Proof. unfold bind, ret; simpl. apply run_eta. Qed.

Lemma bind_attr {D A B} (x : World D -> A) (f : A -> M D B) (w : World D) :
  bind (attr x) f w = f (x w) w.
Proof. unfold bind, attr; simpl. apply run_eta. Qed.

Lemma bind_Ok {D A B} (m : M D A) (f : A -> M D B) (w : World D) (a : A) :
  out (m w) = Ok a ->
  bind m f w = mkRun (out (f a (st (m w)))) (st (f a (st (m w))))
                     (tr (m w) ++ tr (f a (st (m w)))).
Proof. intros H. unfold bind. rewrite H. reflexivity. Qed.

Lemma bind_Raise {D A B} (m : M D A) (f : A -> M D B) (w : World D) (e : exn) :
  out (m w) = Raise e ->
  bind m f w = mkRun (Raise e) (st (m w)) (tr (m w)).
Proof. intros H. unfold bind. rewrite H. reflexivity. Qed.

(** ** The resilient executor *)

Section Executor.

Context {D : Type} (drv : Driver D).

Lemma round_final (i : nat) (r : Request) (w : World D) (final : Res (list Z)) :
  snd (drv_ctrl_transfer drv (dev w) r) = final ->
  (forall n, final = Raise (USBError n) -> i = 0%nat) ->
  usb_command_round drv i r w
  = mkRun (as_return final) (set_dev w (fst (drv_ctrl_transfer drv (dev w) r)))
          [EvTransfer r final].
Proof.
  intros Hf Hi.
  unfold usb_command_round, try_except_USBError, bind, ctrl_transfer; simpl.
  rewrite Hf. destruct final as [v | e]; simpl; [reflexivity |].
  destruct e; try reflexivity.
  rewrite (Hi errno eq_refl). reflexivity.
Qed.

Lemma round_retry (i : nat) (r : Request) (w : World D) (n : Z) :
  snd (drv_ctrl_transfer drv (dev w) r) = Raise (USBError n) ->
  i <> 0%nat ->
  usb_command_round drv i r w
  = mkRun (Ok None) (set_dev w (fst (drv_ctrl_transfer drv (dev w) r)))
          [EvTransfer r (Raise (USBError n)); EvSleep 50].
Proof.
  intros Hf Hi.
  unfold usb_command_round, try_except_USBError, bind, ctrl_transfer; simpl.
  rewrite Hf; simpl.
  destruct i; [congruence | reflexivity].
Qed.

Lemma answers_S (d : D) (r : Request) (n : nat) :
  answers drv d r (S n)
  = (snd (drv_ctrl_transfer drv d r)
       :: fst (answers drv (fst (drv_ctrl_transfer drv d r)) r n),
     snd (answers drv (fst (drv_ctrl_transfer drv d r)) r n)).
Proof. reflexivity. Qed.

Lemma loop_retries (r : Request) (errs : list Z) :
  forall (range : list nat) (w : World D) (final : Res (list Z)) (d' : D),
    (length errs < length range)%nat ->
    (forall j, (j < length errs)%nat -> nth j range 0%nat <> 0%nat) ->
    (forall n, final = Raise (USBError n) ->
               nth (length errs) range 1%nat = 0%nat) ->
    answers drv (dev w) r (S (length errs))
    = (map (fun n => Raise (USBError n)) errs ++ [final], d') ->
    usb_command_loop drv range r w
    = mkRun (as_return final) (set_dev w d') (retry_trace r errs final).
Proof.
  induction errs as [| n errs IH]; intros range w final d' Hlen Hnz Hlast Hans.
  - destruct range as [| i range]; [simpl in Hlen; lia |].
    simpl in Hans. injection Hans as Hf Hd.
    simpl. unfold bind.
    rewrite (round_final i r w final Hf).
    2:{ intros m Hm. apply (Hlast m Hm). }
    simpl. rewrite Hd.
    destruct final as [v | e]; reflexivity.
  - destruct range as [| i range]; [simpl in Hlen; lia |].
    cbn [length] in Hans. rewrite answers_S in Hans.
    cbn [map app] in Hans. injection Hans as Hf Hrest Hd.
    assert (Hi : i <> 0%nat) by (apply (Hnz 0%nat); simpl; lia).
    cbn [usb_command_loop]. unfold bind at 1.
    rewrite (round_retry i r w n Hf Hi). cbn [out st tr].
    rewrite (IH range (set_dev w (fst (drv_ctrl_transfer drv (dev w) r)))
                final d').
    + reflexivity.
    + simpl in Hlen. lia.
    + intros j Hj. apply (Hnz (S j)). simpl. lia.
    + intros m Hm. apply (Hlast m Hm).
    + cbn [dev set_dev]. rewrite answers_S, <- Hrest, <- Hd. reflexivity.
Qed.

(** Every run of the executor is of the kind [usb_command_retries] is
    about: some transport errors, at most four, then a last attempt. *)
Lemma loop_shape (r : Request) :
  forall (k : nat) (w : World D),
  exists errs final d',
    (length errs <= k)%nat /\
    (forall n, final = Raise (USBError n) -> length errs = k) /\
    answers drv (dev w) r (S (length errs))
    = (map (fun n => Raise (USBError n)) errs ++ [final], d').
Proof.
  induction k as [| k IH]; intros w.
  - exists [], (snd (drv_ctrl_transfer drv (dev w) r)),
           (fst (drv_ctrl_transfer drv (dev w) r)).
    repeat split; simpl; auto.
  - destruct (snd (drv_ctrl_transfer drv (dev w) r)) as [v | e] eqn:E.
    + exists [], (Ok v), (fst (drv_ctrl_transfer drv (dev w) r)).
      repeat split; simpl; [lia | discriminate | now rewrite E].
    + destruct (is_USBError e) eqn:Eu.
      * destruct e; try discriminate.
        destruct (IH (set_dev w (fst (drv_ctrl_transfer drv (dev w) r))))
          as (errs & final & d' & Hlen & Hlast & Hans).
        exists (errno :: errs), final, d'.
        repeat split.
        -- simpl; lia.
        -- intros n Hn. simpl. f_equal. eauto.
        -- cbn [length]. rewrite answers_S. rewrite E.
           cbn [dev set_dev] in Hans. rewrite Hans. reflexivity.
      * exists [], (Raise e), (fst (drv_ctrl_transfer drv (dev w) r)).
        repeat split; simpl; [lia | | now rewrite E].
        intros n Hn. injection Hn as ->. discriminate.
Qed.


Lemma retry_trace_transfers (r : Request) (errs : list Z) (final : Res (list Z)) :
  length (transfers (retry_trace r errs final)) = S (length errs).
Proof.
  unfold retry_trace, transfers.
  induction errs as [| n errs IH]; [reflexivity |].
  simpl. now rewrite IH.
Qed.

Lemma retry_trace_delays (r : Request) (errs : list Z) (final : Res (list Z)) :
  delays (retry_trace r errs final) = length errs.
Proof.
  unfold retry_trace, delays.
  induction errs as [| n errs IH]; [reflexivity |].
  simpl. now rewrite IH.
Qed.

Lemma retry_trace_last (r : Request) (errs : list Z) (final : Res (list Z)) :
  last (retry_trace r errs final) = Some (EvTransfer r final).
Proof. unfold retry_trace. apply last_snoc. Qed.

Lemma usb_command_run (r : Request) (w : World D) (errs : list Z)
    (final : Res (list Z)) (d' : D) :
  (length errs <= 4)%nat ->
  (forall n, final = Raise (USBError n) -> length errs = 4%nat) ->
  answers drv (dev w) r (S (length errs))
  = (map (fun n => Raise (USBError n)) errs ++ [final], d') ->
  _usb_command drv r w
  = mkRun (as_return final) (set_dev w d') (retry_trace r errs final).
Proof.
  intros Hlen Hlast Hans. unfold _usb_command.
  apply loop_retries; [simpl; lia | | | exact Hans].
  - intros j Hj. unfold tries_range. simpl.
    do 4 (destruct j as [| j]; [simpl; lia |]). lia.
  - intros n Hn. rewrite (Hlast n Hn). reflexivity.
Qed.

Lemma usb_command_shape (r : Request) (w : World D) :
  exists errs final d',
    (length errs <= 4)%nat /\
    _usb_command drv r w
    = mkRun (as_return final) (set_dev w d') (retry_trace r errs final).
Proof.
  destruct (loop_shape r 4 w) as (errs & final & d' & Hlen & Hlast & Hans).
  exists errs, final, d'. split; [exact Hlen |].
  now apply usb_command_run.
Qed.

(** C2.  Whatever the request, the bus sees at most five attempts.  When
    the driver fails the first attempts with the transport errors [errs],
    at most four of them, and answers the next attempt with [final] (a
    transport error only if that attempt is the fifth), the executor ends
    the way that attempt ended: it returns its result, or raises its
    error.  The bus has then seen [length errs + 1] attempts, each failed
    one followed by a delay of 50 ms, and the last attempt is the last
    event: no delay and no attempt follows it. *)
Theorem usb_command_retries (r : Request) (w : World D) :
  let run := _usb_command drv r w in
  (length (transfers (tr run)) <= 5)%nat /\
  forall (errs : list Z) (final : Res (list Z)) (d' : D),
    (length errs <= 4)%nat ->
    (forall n, final = Raise (USBError n) -> length errs = 4%nat) ->
    answers drv (dev w) r (S (length errs))
    = (map (fun n => Raise (USBError n)) errs ++ [final], d') ->
    out run = as_return final /\
    st run = set_dev w d' /\
    tr run = retry_trace r errs final /\
    length (transfers (tr run)) = S (length errs) /\
    delays (tr run) = length errs /\
    last (tr run) = Some (EvTransfer r final).
Proof.
  intros run. subst run. split.
  - destruct (usb_command_shape r w) as (errs & final & d' & Hlen & ->).
    cbn [tr]. rewrite retry_trace_transfers. lia.
  - intros errs final d' Hlen Hlast Hans.
    rewrite (usb_command_run r w errs final d' Hlen Hlast Hans).
    cbn [out st tr].
    rewrite retry_trace_transfers, retry_trace_delays, retry_trace_last.
    repeat split.
Qed.

End Executor.

(** A device that fails four times and then answers, and one that fails five
    times. *)
Lemma usb_command_retries_witness :
  (let run := _usb_command Mock.driver serial_request
                (Mock.handle SISPM (Mock.mkState 4 [] false (Ok tt) Mock.serial0)) in
   out run = Ok (Some Mock.serial0) /\
   length (transfers (tr run)) = 5%nat /\ delays (tr run) = 4%nat) /\
  (let run := _usb_command Mock.driver serial_request
                (Mock.handle SISPM (Mock.mkState 5 [] false (Ok tt) Mock.serial0)) in
   out run = Raise (USBError 110) /\
   length (transfers (tr run)) = 5%nat /\ delays (tr run) = 4%nat /\
   last (tr run) = Some (EvTransfer serial_request (Raise (USBError 110)))).
Proof.
  split.
  - destruct (usb_command_retries Mock.driver serial_request
      (Mock.handle SISPM (Mock.mkState 4 [] false (Ok tt) Mock.serial0)))
      as (_ & H).
    destruct (H [110; 110; 110; 110] (Ok Mock.serial0) Mock.idle)
      as (H1 & _ & _ & H4 & H6 & _);
      [simpl; lia | discriminate | reflexivity |].
    repeat split; assumption.
  - destruct (usb_command_retries Mock.driver serial_request
      (Mock.handle SISPM (Mock.mkState 5 [] false (Ok tt) Mock.serial0)))
      as (_ & H).
    destruct (H [110; 110; 110; 110] (Raise (USBError 110)) Mock.idle)
      as (H1 & _ & _ & H4 & H6 & H7);
      [simpl; lia | reflexivity | reflexivity |].
    repeat split; assumption.
Defined.

(** ** The device table *)

Lemma device_types_cases (pid : Z) (outs : list Z) (label : string) :
  DEVICE_TYPES !! pid = Some (outs, label) ->
  outs = [1] \/ outs = [1; 2; 3; 4].
Proof.
  unfold DEVICE_TYPES. intros H.
  repeat (rewrite lookup_insert in H; case_decide;
          [injection H as <- <-; auto |]).
  rewrite lookup_empty in H. discriminate.
Qed.

Lemma valid_outlet_range (pid : Z) (outs : list Z) (label : string) (n : Z) :
  DEVICE_TYPES !! pid = Some (outs, label) -> In n outs -> 1 <= n <= 4.
Proof.
  intros H Hin. destruct (device_types_cases _ _ _ H) as [-> | ->];
    simpl in Hin; lia.
Qed.

(** ** The primitives on a valid outlet *)

Section Primitives.

Context {D : Type} (drv : Driver D).

Lemma setitem0_valid (n : Z) :
  1 <= n <= 4 ->
  bytearray_setitem (bytearray 6) 0 (PyInt (n * 3)) = Ok [n * 3; 0; 0; 0; 0; 0].
Proof.
  intros Hn. unfold bytearray_setitem.
  cbn [bytearray repeat length Nat.ltb Nat.leb].
  replace ((0 <=? n * 3) && (n * 3 <? 256)) with true; [reflexivity |].
  symmetry; apply andb_true_iff; split; [apply Z.leb_le | apply Z.ltb_lt]; lia.
Qed.

Lemma status_run (n : Z) (w : World D) :
  1 <= n <= 4 ->
  _status drv (PyInt n) w
  = let u := _usb_command drv (status_request n) w in
    mkRun (match out u with Ok r => status_of_reply r | Raise e => Raise e end)
          (st u) (tr u).
Proof.
  intros Hn. unfold _status.
  cbn [py_mul3]. rewrite bind_lift_Ok.
  rewrite (setitem0_valid n Hn).
  rewrite !bind_lift_Ok. cbn [py_or]. rewrite bind_lift_Ok.
  change (mkRequest (Z.lor 33 128) 1 (Z.lor (Z.shiftl 3 8) (n * 3)) 0
            [n * 3; 0; 0; 0; 0; 0] 500)
    with (status_request n).
  unfold bind at 1. cbv zeta.
  destruct (out (_usb_command drv (status_request n) w)) as [r | e];
    [| reflexivity].
  unfold bind, lift, ret, status_of_reply; simpl.
  destruct (py_getitem r 1) as [b | e]; simpl; now rewrite app_nil_r.
Qed.

Lemma status_one_transfer (n : Z) (w : World D) :
  1 <= n <= 4 -> one_transfer (status_request n) (tr (_status drv (PyInt n) w)).
Proof.
  intros Hn. rewrite (status_run n w Hn). cbv zeta. cbn [tr].
  destruct (usb_command_shape drv (status_request n) w)
    as (errs & final & d' & Hlen & ->).
  exists errs, final. auto.
Qed.

(** The statements of [_on] between its two status reads. *)
Lemma on_write (n : Z) (k : M D bool) (w : World D) :
  1 <= n <= 4 ->
  (do t <- lift (py_mul3 (PyInt n));
   do bytes <- lift (bytearray_setitem (bytearray 6) 0 t);
   do bytes <- lift (bytearray_setitem bytes 1 (PyInt 0x03));
   do t' <- lift (py_mul3 (PyInt n));
   do value <- lift (py_or (Z.shiftl 0x03 8) t');
   perform _usb_command drv (mkRequest 0x21 0x09 value 0 bytes 500);
   k) w
  = (perform _usb_command drv (write_request n true); k) w.
Proof.
  intros Hn. cbn [py_mul3]. rewrite bind_lift_Ok.
  rewrite (setitem0_valid n Hn), bind_lift_Ok.
  change (bytearray_setitem [n * 3; 0; 0; 0; 0; 0] 1 (PyInt 3))
    with (@Ok (list Z) [n * 3; 3; 0; 0; 0; 0]).
  rewrite !bind_lift_Ok. cbn [py_or]. rewrite bind_lift_Ok. reflexivity.
Qed.

(** The statements of [_off] between its two status reads. *)
Lemma off_write (n : Z) (k : M D bool) (w : World D) :
  1 <= n <= 4 ->
  (do t <- lift (py_mul3 (PyInt n));
   do bytes <- lift (bytearray_setitem (bytearray 6) 0 t);
   do t' <- lift (py_mul3 (PyInt n));
   do value <- lift (py_or (Z.shiftl 0x03 8) t');
   perform _usb_command drv (mkRequest 0x21 0x09 value 0 bytes 500);
   k) w
  = (perform _usb_command drv (write_request n false); k) w.
Proof.
  intros Hn. cbn [py_mul3]. rewrite bind_lift_Ok.
  rewrite (setitem0_valid n Hn).
  rewrite !bind_lift_Ok. cbn [py_or]. rewrite bind_lift_Ok. reflexivity.
Qed.

Lemma on_run (n : Z) (w : World D) :
  1 <= n <= 4 ->
  _on drv (PyInt n) w
  = let r0 := _status drv (PyInt n) w in
    match out r0 with
    | Ok true => mkRun (Ok true) (st r0) (tr r0)
    | Ok false =>
        let r1 := _usb_command drv (write_request n true) (st r0) in
        match out r1 with
        | Ok _ =>
            let r2 := _status drv (PyInt n) (st r1) in
            mkRun (out r2) (st r2) (tr r0 ++ tr r1 ++ tr r2)
        | Raise e => mkRun (Raise e) (st r1) (tr r0 ++ tr r1)
        end
    | Raise e => mkRun (Raise e) (st r0) (tr r0)
    end.
Proof.
  intros Hn. unfold _on. unfold bind at 1. cbv zeta.
  destruct (out (_status drv (PyInt n) w)) as [[|] | e]; [| | reflexivity].
  - unfold ret; simpl. now rewrite app_nil_r.
  - rewrite (on_write n _ _ Hn). unfold bind. cbv zeta.
    destruct (out (_usb_command drv (write_request n true) _));
      cbn [out st tr]; reflexivity.
Qed.

Lemma off_run (n : Z) (w : World D) :
  1 <= n <= 4 ->
  _off drv (PyInt n) w
  = let r0 := _status drv (PyInt n) w in
    match out r0 with
    | Ok false => mkRun (Ok true) (st r0) (tr r0)
    | Ok true =>
        let r1 := _usb_command drv (write_request n false) (st r0) in
        match out r1 with
        | Ok _ =>
            let r2 := _status drv (PyInt n) (st r1) in
            mkRun (match out r2 with Ok s => Ok (negb s) | Raise e => Raise e end)
                  (st r2) (tr r0 ++ tr r1 ++ tr r2)
        | Raise e => mkRun (Raise e) (st r1) (tr r0 ++ tr r1)
        end
    | Raise e => mkRun (Raise e) (st r0) (tr r0)
    end.
Proof.
  intros Hn. unfold _off. unfold bind at 1. cbv zeta.
  destruct (out (_status drv (PyInt n) w)) as [[|] | e]; [| | reflexivity].
  - cbn [negb]. rewrite (off_write n _ _ Hn). unfold bind. cbv zeta.
    destruct (out (_usb_command drv (write_request n false) _));
      cbn [out st tr]; [| reflexivity].
    destruct (out (_status drv (PyInt n) _)); cbn [out st tr ret];
      now rewrite ?app_nil_r.
  - unfold ret; simpl. now rewrite app_nil_r.
Qed.

Lemma retry_trace_writes (n : Z) (errs : list Z) (final : Res (list Z)) :
  writes (retry_trace (status_request n) errs final) = 0%nat.
Proof.
  unfold retry_trace, writes.
  induction errs as [| m errs IH]; [reflexivity |].
  simpl. exact IH.
Qed.

Lemma status_writes (n : Z) (w : World D) :
  1 <= n <= 4 -> writes (tr (_status drv (PyInt n) w)) = 0%nat.
Proof.
  intros Hn. destruct (status_one_transfer n w Hn) as (errs & final & _ & ->).
  apply retry_trace_writes.
Qed.

Lemma usb_command_one_transfer (r : Request) (w : World D) :
  one_transfer r (tr (_usb_command drv r w)).
Proof.
  destruct (usb_command_shape drv r w) as (errs & final & d' & Hlen & ->).
  exists errs, final. auto.
Qed.

End Primitives.


(** ** What the undecorated methods leave alone *)

Lemma releases_app (t1 t2 : list Event) :
  releases (t1 ++ t2) = (releases t1 + releases t2)%nat.
Proof. unfold releases. now rewrite List.filter_app, length_app. Qed.

Lemma transfers_app (t1 t2 : list Event) :
  transfers (t1 ++ t2) = transfers t1 ++ transfers t2.
Proof. unfold transfers. apply List.filter_app. Qed.

Create HintDb quiet.

Section Quiet.

Context {D : Type} (drv : Driver D).

Lemma quiet_ret {A} (a : A) : quiet (@ret D A a).
Proof. intros w. repeat split. Qed.

Lemma quiet_raise {A} (e : exn) : quiet (@raise D A e).
Proof. intros w. repeat split. Qed.

Lemma quiet_lift {A} (r : Res A) : quiet (@lift D A r).
Proof. intros w. repeat split. Qed.

Lemma quiet_bind {A B} (m : M D A) (f : A -> M D B) :
  quiet m -> (forall a, quiet (f a)) -> quiet (bind m f).
Proof.
  intros Hm Hf w. destruct (Hm w) as (Hm1 & Hm2 & Hm3).
  unfold bind. cbv zeta. destruct (out (m w)) as [a | e]; cbn [out st tr].
  - destruct (Hf a (st (m w))) as (Hf1 & Hf2 & Hf3).
    rewrite releases_app, Hf1, Hf2, Hf3, Hm1, Hm2, Hm3. auto.
  - auto.
Qed.

Lemma quiet_try_except {A} (m : M D A) (h : Z -> M D A) :
  quiet m -> (forall n, quiet (h n)) -> quiet (try_except_USBError m h).
Proof.
  intros Hm Hh w. destruct (Hm w) as (Hm1 & Hm2 & Hm3).
  unfold try_except_USBError. cbv zeta.
  destruct (out (m w)) as [a | e]; [auto |].
  destruct e; auto.
  cbn [out st tr]. destruct (Hh errno (st (m w))) as (Hf1 & Hf2 & Hf3).
  rewrite releases_app, Hf1, Hf2, Hf3, Hm1, Hm2, Hm3. auto.
Qed.

Lemma quiet_ctrl_transfer (r : Request) : quiet (ctrl_transfer drv r).
Proof. intros w. repeat split. Qed.

Lemma quiet_sleep (ms : Z) : quiet (@sleep D ms).
Proof. intros w. repeat split. Qed.

Hint Resolve quiet_ret quiet_raise quiet_lift quiet_ctrl_transfer quiet_sleep
  : quiet.

Ltac quiet_steps :=
  repeat first
    [ apply quiet_bind; [| intros ?]
    | apply quiet_try_except; [| intros ?]
    | solve [auto with quiet]
    | match goal with |- quiet (if ?b then _ else _) => destruct b end
    | match goal with |- quiet (match ?x with _ => _ end) => destruct x end ].

Lemma quiet_usb_command (r : Request) : quiet (_usb_command drv r).
Proof.
  unfold _usb_command. generalize tries_range as range.
  induction range as [| i range IH]; cbn [usb_command_loop].
  - auto with quiet.
  - unfold usb_command_round. quiet_steps.
Qed.
Hint Resolve quiet_usb_command : quiet.

Lemma quiet_status (num : pyval) : quiet (_status drv num).
Proof. unfold _status. quiet_steps. Qed.
Hint Resolve quiet_status : quiet.

Lemma quiet_on (num : pyval) : quiet (_on drv num).
Proof. unfold _on. quiet_steps. Qed.

Lemma quiet_off (num : pyval) : quiet (_off drv num).
Proof. unfold _off. quiet_steps. Qed.
Hint Resolve quiet_on quiet_off : quiet.

Lemma quiet_toggle_expr (num : pyval) : quiet (toggle_expr drv num).
Proof. unfold toggle_expr. quiet_steps. Qed.
Hint Resolve quiet_toggle_expr : quiet.

Lemma quiet_single (m : method) (num : pyval) : quiet (single drv m num).
Proof. destruct m; cbn [single]; auto with quiet. Qed.
Hint Resolve quiet_single : quiet.

Lemma quiet_attr {A} (x : World D -> A) : quiet (attr x).
Proof. intros w. repeat split. Qed.
Hint Resolve quiet_attr : quiet.

Lemma quiet_device_type : quiet (@device_type D).
Proof. unfold device_type. quiet_steps. Qed.
Hint Resolve quiet_device_type : quiet.

Lemma quiet_outlets : quiet (@outlets D).
Proof. unfold outlets. quiet_steps. Qed.
Hint Resolve quiet_outlets : quiet.

Lemma quiet_dict_of (f : pyval -> M D bool) (keys : list Z) :
  (forall v, quiet (f v)) -> forall acc, quiet (dict_of f keys acc).
Proof.
  intros Hf. induction keys as [| i keys IH]; intros acc; cbn [dict_of].
  - auto with quiet.
  - apply quiet_bind; [apply Hf | intros b; apply IH].
Qed.

Lemma quiet_func_of (m : method) (num : pyval) : quiet (func_of drv m num).
Proof.
  destruct m; cbn [func_of];
    unfold status_func, on_func, off_func, toggle_func;
    quiet_steps; apply quiet_dict_of; auto with quiet.
Qed.

End Quiet.

(** ** The decorator *)

Section Decorator.

Context {D : Type} (drv : Driver D).

Lemma release_after_call_off (w : World D) :
  autodispose_flag w = false ->
  release_after_call drv w = mkRun (Ok tt) w [].
Proof.
  intros H. unfold release_after_call, try_except_USBError. cbv zeta.
  rewrite H. reflexivity.
Qed.

Lemma release_after_call_on (w : World D) :
  autodispose_flag w = true ->
  release_after_call drv w
  = let p := drv_dispose_resources drv (dev w) in
    mkRun (match snd p with
           | Ok _ | Raise (USBError _) => Ok tt
           | Raise e => Raise e
           end)
          (set_dev w (fst p)) [EvDispose (snd p)].
Proof.
  intros H. unfold release_after_call, try_except_USBError. cbv zeta.
  rewrite H. unfold dispose_resources. cbn [out st tr].
  destruct (snd (drv_dispose_resources drv (dev w))) as [[] | e];
    [reflexivity |].
  destruct e; reflexivity.
Qed.

Lemma autodispose_law {A} (func : M D A) (w : World D) :
  quiet func -> released_once drv func (autodispose drv func) w.
Proof.
  intros Hq. destruct (Hq w) as (Hflag & _ & Hrel).
  unfold released_once, autodispose, try_finally. cbv zeta.
  destruct (autodispose_flag w) eqn:E.
  - rewrite (release_after_call_on (st (func w))) by congruence. cbv zeta.
    cbn [out st tr].
    destruct (snd (drv_dispose_resources drv (dev (st (func w)))))
      as [[] | e]; cbn [out st tr].
    + rewrite releases_app, Hrel. repeat split. exact Hflag.
    + destruct e; cbn [out st tr]; rewrite releases_app, Hrel; repeat split;
        exact Hflag.
  - rewrite (release_after_call_off (st (func w))) by congruence.
    cbn [out st tr]. rewrite app_nil_r, run_eta. repeat split; assumption.
Qed.

(** C4, as the code has it.  For each public method and for
    [_get_serial], with [r] the run of the decorated function: when the
    flag is on, the device is released once, as the last event of the
    call, on whatever path the function ended; the call ends the way the
    function ended when the release succeeds or fails with a [USBError],
    and raises the error of the release when it is of another class.
    When the flag is off the call is the run of the function and releases
    nothing; [dispose()] releases the device once. *)
Theorem autodispose_releases_once (w : World D) (m : method) (num : pyval) :
  released_once drv (func_of drv m num) (public drv m num) w /\
  released_once drv (_usb_command drv serial_request) (_get_serial drv) w /\
  releases (tr (dispose drv w)) = 1%nat.
Proof.
  split; [| split].
  - pose proof (quiet_func_of drv m num) as Hq.
    destruct m; apply autodispose_law; exact Hq.
  - apply autodispose_law. apply quiet_usb_command.
  - reflexivity.
Qed.

End Decorator.

(** C4 as stated fails.  On a device whose release raises an error that
    is not a [USBError] (a pyusb backend raises [NotImplementedError] for
    what the platform does not support), [status(1)] does not return the
    status it has read; and when all five attempts of the read fail,
    [status(1)] does not raise the transport error: both calls raise the
    error of the release. *)
Lemma release_failure_replaces_outcome :
  (let w := Mock.handle SISPM
              (Mock.mkState 0 [] false
                 (Raise (OtherError "NotImplementedError")) Mock.serial0) in
   out (status_func Mock.driver (PyInt 1) w) = Ok (RBool false) /\
   out (status Mock.driver (PyInt 1) w)
   = Raise (OtherError "NotImplementedError")) /\
  (let w := Mock.handle SISPM
              (Mock.mkState 5 [] false
                 (Raise (OtherError "NotImplementedError")) Mock.serial0) in
   out (status_func Mock.driver (PyInt 1) w) = Raise (USBError 110) /\
   out (status Mock.driver (PyInt 1) w)
   = Raise (OtherError "NotImplementedError")).
Proof. vm_compute. repeat split. Qed.

(** ** The public methods *)

Section Public.

Context {D : Type} (drv : Driver D).

Lemma bind_pure {A B} (m : M D A) (f : A -> M D B) (w : World D) (a : A) :
  m w = mkRun (Ok a) w [] -> bind m f w = f a w.
Proof. intros H. unfold bind. rewrite H. cbn [out st tr app]. apply run_eta. Qed.

Lemma bind_fail {A B} (m : M D A) (f : A -> M D B) (w : World D) (e : exn)
    (w' : World D) (t : list Event) :
  m w = mkRun (Raise e) w' t -> bind m f w = mkRun (Raise e) w' t.
Proof. intros H. unfold bind. rewrite H. reflexivity. Qed.

Lemma outlets_known (w : World D) (outs : list Z) (label : string) :
  DEVICE_TYPES !! idProduct w = Some (outs, label) ->
  outlets w = mkRun (Ok outs) w [].
Proof.
  intros H. unfold outlets, device_type.
  rewrite bind_Ok with (a := (outs, label)); rewrite bind_attr, H; reflexivity.
Qed.

Lemma outlets_unknown (w : World D) :
  DEVICE_TYPES !! idProduct w = None ->
  outlets w = mkRun (Raise (KeyError (idProduct w))) w [].
Proof.
  intros H. unfold outlets, device_type.
  rewrite bind_Raise with (e := KeyError (idProduct w));
    rewrite bind_attr, H; reflexivity.
Qed.

Lemma func_of_shape (m : method) (num : pyval) :
  func_of drv m num
  = (do outs <- outlets;
     if py_in num outs then do b <- single drv m num; ret (RBool b)
     else if py_eq num (PyStr "all") then
       do outs' <- outlets;
       do d <- dict_of (single drv m) outs' ∅;
       ret (RDict d)
     else raise (OutletException num)).
Proof. destruct m; reflexivity. Qed.

Lemma public_decorated (m : method) (num : pyval) :
  public drv m num = autodispose drv (func_of drv m num).
Proof. destruct m; reflexivity. Qed.

Lemma autodispose_run {A} (func : M D A) (w : World D) :
  autodispose drv func w
  = let r := func w in
    let f := release_after_call drv (st r) in
    mkRun (match out f with Ok _ => out r | Raise e => Raise e end)
          (st f) (tr r ++ tr f).
Proof.
  unfold autodispose, try_finally. cbv zeta.
  destruct (out (release_after_call drv (st (func w)))); reflexivity.
Qed.

Lemma release_no_transfers (w : World D) :
  transfers (tr (release_after_call drv w)) = [].
Proof.
  destruct (autodispose_flag w) eqn:E.
  - rewrite release_after_call_on by exact E. reflexivity.
  - rewrite release_after_call_off by exact E. reflexivity.
Qed.

Lemma autodispose_transfers {A} (func : M D A) (w : World D) :
  transfers (tr (autodispose drv func w)) = transfers (tr (func w)).
Proof.
  rewrite autodispose_run. cbv zeta. cbn [tr].
  now rewrite transfers_app, release_no_transfers, app_nil_r.
Qed.

(** A method that raises at once, and the call that decorates it. *)
Lemma raises_at_once (m : method) (num : pyval) (w : World D) (e : exn) :
  func_of drv m num w = mkRun (Raise e) w [] ->
  transfers (tr (public drv m num w)) = [] /\
  (forall res, out (public drv m num w) <> Ok res) /\
  (release_passes drv w -> out (public drv m num w) = Raise e).
Proof.
  intros H. rewrite public_decorated. split; [| split].
  - rewrite autodispose_transfers, H. reflexivity.
  - intros res. rewrite autodispose_run, H. cbv zeta. cbn [out st].
    destruct (out (release_after_call drv w)); discriminate.
  - intros Hp. rewrite autodispose_run, H. cbv zeta. cbn [out st].
    unfold release_passes in Hp. now rewrite Hp.
Qed.

Lemma py_in_valid (n : Z) (outs : list Z) :
  In n outs -> py_in (PyInt n) outs = true.
Proof.
  intros H. unfold py_in. apply existsb_exists. exists n. split; [exact H |].
  simpl. apply Z.eqb_refl.
Qed.

Lemma func_of_valid (m : method) (n : Z) (w : World D) (outs : list Z)
    (label : string) :
  DEVICE_TYPES !! idProduct w = Some (outs, label) ->
  In n outs ->
  func_of drv m (PyInt n) w
  = let r := single drv m (PyInt n) w in
    mkRun (match out r with Ok b => Ok (RBool b) | Raise e => Raise e end)
          (st r) (tr r).
Proof.
  intros Hty Hin. rewrite func_of_shape.
  rewrite (bind_pure _ _ _ _ (outlets_known w outs label Hty)).
  rewrite (py_in_valid n outs Hin). unfold bind, ret. cbv zeta.
  destruct (out (single drv m (PyInt n) w)); cbn [out st tr];
    now rewrite ?app_nil_r.
Qed.

(** C3, as the code has it.  On a device of a known type, for a value
    [num] that is neither one of its outlets nor ['all'], each of the
    four methods raises [OutletException(num)] having done nothing; the
    call performs no transfer and never returns a value.  The caller
    receives that exception when the [finally] clause of the decorator
    ends without an exception of its own (the flag is off, or the
    release succeeds or fails with a [USBError]); when the release
    raises an error of another class, the caller receives that error in
    its place. *)
Theorem illegal_outlet_rejected (w : World D) (m : method) (num : pyval)
    (outs : list Z) (label : string) :
  DEVICE_TYPES !! idProduct w = Some (outs, label) ->
  py_in num outs = false ->
  py_eq num (PyStr "all") = false ->
  func_of drv m num w = mkRun (Raise (OutletException num)) w [] /\
  transfers (tr (public drv m num w)) = [] /\
  (forall res, out (public drv m num w) <> Ok res) /\
  (release_passes drv w ->
   out (public drv m num w) = Raise (OutletException num)) /\
  (forall e, out (release_after_call drv w) = Raise e ->
   out (public drv m num w) = Raise e).
Proof.
  intros Hty Hin Hall.
  assert (Hf : func_of drv m num w = mkRun (Raise (OutletException num)) w []).
  { rewrite func_of_shape.
    rewrite (bind_pure _ _ _ _ (outlets_known w outs label Hty)).
    rewrite Hin, Hall. reflexivity. }
  split; [exact Hf |].
  destruct (raises_at_once m num w _ Hf) as (H1 & H2 & H3).
  split; [exact H1 |]. split; [exact H2 |]. split; [exact H3 |].
  intros e He. rewrite public_decorated, autodispose_run, Hf. cbv zeta.
  cbn [out st]. now rewrite He.
Qed.

Lemma release_after_call_keeps (w : World D) :
  idProduct (st (release_after_call drv w)) = idProduct w /\
  autodispose_flag (st (release_after_call drv w)) = autodispose_flag w.
Proof.
  destruct (autodispose_flag w) eqn:E.
  - rewrite release_after_call_on by exact E. cbv zeta. cbn [st].
    split; [reflexivity | exact E].
  - rewrite release_after_call_off by exact E. cbn [st]. auto.
Qed.

Lemma autodispose_keeps {A} (func : M D A) (w : World D) :
  quiet func ->
  idProduct (st (autodispose drv func w)) = idProduct w /\
  autodispose_flag (st (autodispose drv func w)) = autodispose_flag w.
Proof.
  intros Hq. destruct (Hq w) as (Hflag & Hid & _).
  rewrite autodispose_run. cbv zeta. cbn [st].
  destruct (release_after_call_keeps (st (func w))) as (H1 & H2).
  rewrite H1, H2. auto.
Qed.

Lemma serial_keeps (w : World D) :
  idProduct (st (serial drv w)) = idProduct w.
Proof.
  assert (Hq : idProduct (st (_get_serial drv w)) = idProduct w).
  { apply autodispose_keeps. apply quiet_usb_command. }
  unfold serial, bind. revert Hq.
  generalize (_get_serial drv w) as g. intros g Hq.
  destruct g as [[[bs |] | e] w' t]; exact Hq.
Qed.

Lemma info_run (w : World D) :
  info drv w
  = let s := serial drv w in
    match out s with
    | Ok x =>
        let k := (do devicetype_ <- device_type;
                  do outlets_ <- outlets;
                  do bus_ <- attr bus;
                  do address_ <- attr address;
                  ret (mkInfo (manufacturer w) (product w)
                         ("0x" +:+ zfill 4 (str_from 2 (hex (idVendor w))))
                         ("0x" +:+ zfill 4 (str_from 2 (hex (idProduct w))))
                         x (snd devicetype_) outlets_ bus_ address_)) (st s) in
        mkRun (out k) (st k) (tr s ++ tr k)
    | Raise e => mkRun (Raise e) (st s) (tr s)
    end.
Proof.
  unfold info.
  rewrite !bind_attr, !bind_ret, !bind_attr, !bind_ret.
  unfold bind at 1. reflexivity.
Qed.

(** C9, as the code has it.  On a device whose product id is not in
    [DEVICE_TYPES]: each of the four methods, whatever its argument,
    raises the [KeyError] of the table look-up having done nothing (no
    validation, no transfer), and so does the [outlets] property; the
    caller of the method receives that [KeyError], the [finally] clause
    ending without an exception of its own.  The [info] property reads
    the serial first: it raises the [KeyError] only after that read, with
    its transfers and its release, has returned, and raises the error of
    the read when it fails. *)
Theorem unknown_product_key_error (w : World D) :
  DEVICE_TYPES !! idProduct w = None ->
  (forall (m : method) (num : pyval),
     func_of drv m num w = mkRun (Raise (KeyError (idProduct w))) w [] /\
     transfers (tr (public drv m num w)) = [] /\
     (forall res, out (public drv m num w) <> Ok res) /\
     (release_passes drv w ->
      out (public drv m num w) = Raise (KeyError (idProduct w)))) /\
  outlets w = mkRun (Raise (KeyError (idProduct w))) w [] /\
  (let s := serial drv w in
   info drv w
   = mkRun (match out s with
            | Ok _ => Raise (KeyError (idProduct w))
            | Raise e => Raise e
            end) (st s) (tr s)).
Proof.
  intros Hty. split; [| split].
  - intros m num.
    assert (Hf : func_of drv m num w
                 = mkRun (Raise (KeyError (idProduct w))) w []).
    { rewrite func_of_shape.
      now rewrite (bind_fail _ _ _ _ _ _ (outlets_unknown w Hty)). }
    split; [exact Hf |]. now apply raises_at_once.
  - now apply outlets_unknown.
  - rewrite info_run. pose proof (serial_keeps w) as Hid. revert Hid.
    generalize (serial drv w) as s. intros s Hid. cbv zeta.
    destruct s as [[x | e] w' t]; cbn [out st tr] in *; [| reflexivity].
    assert (Hd : device_type w' = mkRun (Raise (KeyError (idProduct w))) w' []).
    { unfold device_type. rewrite bind_attr, Hid, Hty. reflexivity. }
    rewrite (bind_fail _ _ _ _ _ _ Hd). cbn [out st tr].
    now rewrite app_nil_r.
Qed.

Lemma status_True : _status drv (PyBool true) = _status drv (PyInt 1).
Proof.
  unfold _status. cbn [py_mul3]. change (Z_of_bool true) with 1. reflexivity.
Qed.

Lemma on_True : _on drv (PyBool true) = _on drv (PyInt 1).
Proof.
  unfold _on. rewrite status_True. cbn [py_mul3].
  change (Z_of_bool true) with 1. reflexivity.
Qed.

Lemma off_True : _off drv (PyBool true) = _off drv (PyInt 1).
Proof.
  unfold _off. rewrite status_True. cbn [py_mul3].
  change (Z_of_bool true) with 1. reflexivity.
Qed.

Lemma single_True (m : method) :
  single drv m (PyBool true) = single drv m (PyInt 1).
Proof.
  destruct m; cbn [single]; unfold toggle_expr;
    now rewrite ?status_True, ?on_True, ?off_True.
Qed.

Lemma single_float (m : method) (w : World D) :
  single drv m (PyFloat float_one) w = mkRun (Raise TypeError) w [].
Proof. destruct m; reflexivity. Qed.

(** C10, as the code has it.  On a device of a known type: a call with
    [True] is the call with [1]; a call with [1.0] passes the membership
    test and then raises [TypeError] at [bytes[0] = num * 3], before any
    transfer. *)
Theorem outlet_by_equality (w : World D) (m : method) (outs : list Z)
    (label : string) :
  DEVICE_TYPES !! idProduct w = Some (outs, label) ->
  public drv m (PyBool true) w = public drv m (PyInt 1) w /\
  func_of drv m (PyBool true) w
  = (let r := single drv m (PyInt 1) w in
     mkRun (match out r with Ok b => Ok (RBool b) | Raise e => Raise e end)
           (st r) (tr r)) /\
  py_in (PyFloat float_one) outs = true /\
  func_of drv m (PyFloat float_one) w = mkRun (Raise TypeError) w [] /\
  transfers (tr (public drv m (PyFloat float_one) w)) = [] /\
  (forall res, out (public drv m (PyFloat float_one) w) <> Ok res) /\
  (release_passes drv w ->
   out (public drv m (PyFloat float_one) w) = Raise TypeError).
Proof.
  intros Hty.
  assert (Hin : py_in (PyFloat float_one) outs = true
                /\ py_in (PyInt 1) outs = true).
  { destruct (device_types_cases _ _ _ Hty) as [-> | ->]; split; reflexivity. }
  destruct Hin as (Hf1 & Hi1).
  assert (Hf : func_of drv m (PyFloat float_one) w
               = mkRun (Raise TypeError) w []).
  { rewrite func_of_shape.
    rewrite (bind_pure _ _ _ _ (outlets_known w outs label Hty)).
    rewrite Hf1. now rewrite (bind_fail _ _ _ _ _ _ (single_float m w)). }
  assert (He : func_of drv m (PyBool true) w = func_of drv m (PyInt 1) w).
  { rewrite !func_of_shape.
    rewrite !(bind_pure _ _ _ _ (outlets_known w outs label Hty)).
    change (py_in (PyBool true) outs) with (py_in (PyInt 1) outs).
    rewrite Hi1. now rewrite single_True. }
  split; [| split;
    [| split; [exact Hf1 | split; [exact Hf | now apply raises_at_once]]]].
  - rewrite !public_decorated, !autodispose_run. cbv zeta. now rewrite He.
  - rewrite He. apply (func_of_valid m 1 w outs label Hty).
    destruct (device_types_cases _ _ _ Hty) as [-> | ->]; simpl; auto.
Qed.

End Public.

Section Derived.

Context {D : Type} (drv : Driver D).

(** C1.  For an outlet number [n] of the device, with [r0] the initial
    status read.  [_on]: when [r0] returns true, [_on] ends as [r0] did,
    returning true, and no write was attempted; when [r0] returns false and
    the write [r1] goes through, [_on] ends the way the fresh status read
    [r2] ends, so it returns false (and raises nothing) when that read
    still says off, and the bus has seen one status transfer, one write
    transfer and one status transfer.  [_off] is the mirror image, and
    returns the negation of the fresh read.  The methods [on] and [off]
    return what [_on] and [_off] return, with the same transfers. *)
Theorem on_off_confirmation (w : World D) (n : Z) (outs : list Z)
    (label : string) :
  DEVICE_TYPES !! idProduct w = Some (outs, label) ->
  In n outs ->
  let r0 := _status drv (PyInt n) w in
  (out r0 = Ok true ->
     _on drv (PyInt n) w = mkRun (Ok true) (st r0) (tr r0) /\
     writes (tr (_on drv (PyInt n) w)) = 0%nat) /\
  (out r0 = Ok false ->
     let r1 := _usb_command drv (write_request n true) (st r0) in
     let r2 := _status drv (PyInt n) (st r1) in
     forall reply, out r1 = Ok reply ->
       _on drv (PyInt n) w = mkRun (out r2) (st r2) (tr r0 ++ tr r1 ++ tr r2) /\
       one_transfer (status_request n) (tr r0) /\
       one_transfer (write_request n true) (tr r1) /\
       one_transfer (status_request n) (tr r2)) /\
  (out r0 = Ok false ->
     _off drv (PyInt n) w = mkRun (Ok true) (st r0) (tr r0) /\
     writes (tr (_off drv (PyInt n) w)) = 0%nat) /\
  (out r0 = Ok true ->
     let r1 := _usb_command drv (write_request n false) (st r0) in
     let r2 := _status drv (PyInt n) (st r1) in
     forall reply, out r1 = Ok reply ->
       _off drv (PyInt n) w
       = mkRun (match out r2 with Ok s => Ok (negb s) | Raise e => Raise e end)
               (st r2) (tr r0 ++ tr r1 ++ tr r2) /\
       one_transfer (status_request n) (tr r0) /\
       one_transfer (write_request n false) (tr r1) /\
       one_transfer (status_request n) (tr r2)) /\
  (forall m, m = On \/ m = Off ->
     out (func_of drv m (PyInt n) w)
     = match out (single drv m (PyInt n) w) with
       | Ok b => Ok (RBool b)
       | Raise e => Raise e
       end /\
     transfers (tr (public drv m (PyInt n) w))
     = transfers (tr (single drv m (PyInt n) w))).
Proof.
  intros Hty Hin.
  pose proof (valid_outlet_range _ _ _ _ Hty Hin) as Hn.
  cbv zeta. rewrite (on_run drv n w Hn), (off_run drv n w Hn). cbv zeta.
  split; [| split; [| split; [| split]]].
  - intros H. rewrite H. split; [reflexivity |].
    cbn [tr]. now apply status_writes.
  - intros H reply H0. rewrite H, H0. split; [reflexivity |].
    split; [now apply status_one_transfer |].
    split; [apply usb_command_one_transfer | now apply status_one_transfer].
  - intros H. rewrite H. split; [reflexivity |].
    cbn [tr]. now apply status_writes.
  - intros H reply H0. rewrite H, H0. split; [reflexivity |].
    split; [now apply status_one_transfer |].
    split; [apply usb_command_one_transfer | now apply status_one_transfer].
  - intros m _. rewrite public_decorated, autodispose_transfers.
    rewrite (func_of_valid drv m n w outs label Hty Hin). split; reflexivity.
Qed.

End Derived.

(** On the mock: outlet 2 already on; outlet 2 off on a device whose
    writes change nothing. *)
Lemma on_off_confirmation_witness :
  (let w := Mock.handle SISPM (Mock.mkState 0 [2] false (Ok tt) Mock.serial0) in
   out (_on Mock.driver (PyInt 2) w) = Ok true /\
   writes (tr (_on Mock.driver (PyInt 2) w)) = 0%nat) /\
  (let w := Mock.handle SISPM (Mock.mkState 0 [] true (Ok tt) Mock.serial0) in
   out (_on Mock.driver (PyInt 2) w) = Ok false /\
   writes (tr (_on Mock.driver (PyInt 2) w)) = 1%nat).
Proof.
  split.
  - intros w.
    destruct (on_off_confirmation Mock.driver w 2 [1; 2; 3; 4] "4-socket SiS-PM"
                eq_refl (or_intror (or_introl eq_refl))) as (H & _).
    destruct (H eq_refl) as (H1 & H2). split; [| exact H2].
    rewrite H1. reflexivity.
  - intros w.
    destruct (on_off_confirmation Mock.driver w 2 [1; 2; 3; 4] "4-socket SiS-PM"
                eq_refl (or_intror (or_introl eq_refl))) as (_ & H & _).
    destruct (H eq_refl (Some [6; 3; 0; 0; 0; 0]) eq_refl) as (H1 & _).
    rewrite H1. split; reflexivity.
Defined.

(** Outlet 7 on a four-socket device. *)
Lemma illegal_outlet_rejected_witness :
  let w := Mock.handle SISPM Mock.idle in
  out (toggle Mock.driver (PyInt 7) w) = Raise (OutletException (PyInt 7)) /\
  transfers (tr (toggle Mock.driver (PyInt 7) w)) = [].
Proof.
  intros w.
  destruct (illegal_outlet_rejected Mock.driver w Toggle (PyInt 7)
              [1; 2; 3; 4] "4-socket SiS-PM" eq_refl eq_refl eq_refl)
    as (_ & H2 & _ & H3 & _).
  split; [apply H3; reflexivity | exact H2].
Defined.

(** C3 as stated fails.  On a four-socket device whose release raises an
    error that is not a [USBError], 7 is not an outlet and is not
    ['all'], the methods raise the illegal-outlet error and send
    nothing, and yet the callers of [status(7)] and [toggle(7)] receive
    the error of the release, not the illegal-outlet error. *)
Lemma illegal_outlet_masked_by_release :
  let w := Mock.handle SISPM
             (Mock.mkState 0 [] false
                (Raise (OtherError "NotImplementedError")) Mock.serial0) in
  DEVICE_TYPES !! idProduct w = Some ([1; 2; 3; 4], "4-socket SiS-PM"%string) /\
  py_in (PyInt 7) [1; 2; 3; 4] = false /\
  py_eq (PyInt 7) (PyStr "all") = false /\
  out (status_func Mock.driver (PyInt 7) w)
  = Raise (OutletException (PyInt 7)) /\
  out (status Mock.driver (PyInt 7) w)
  = Raise (OtherError "NotImplementedError") /\
  out (toggle Mock.driver (PyInt 7) w)
  = Raise (OtherError "NotImplementedError") /\
  out (status Mock.driver (PyInt 7) w) <> Raise (OutletException (PyInt 7)).
Proof. vm_compute. repeat split. discriminate. Qed.

(** C9 as stated fails for [info]: on a device of an unknown product id
    the serial is read from the bus before the table is looked up, and
    when that read fails [info] raises its [USBError], not a [KeyError]. *)
Lemma info_reads_serial_before_table :
  (let w := Mock.handle 0x1234 Mock.idle in
   DEVICE_TYPES !! idProduct w = None /\
   out (info Mock.driver w) = Raise (KeyError 0x1234) /\
   transfers (tr (info Mock.driver w))
   = [EvTransfer serial_request (Ok Mock.serial0)]) /\
  (let w := Mock.handle 0x1234
              (Mock.mkState 5 [] false (Ok tt) Mock.serial0) in
   out (info Mock.driver w) = Raise (USBError 110)).
Proof. vm_compute. repeat split. Qed.

Lemma unknown_product_key_error_witness :
  let w := Mock.handle 0x1234 Mock.idle in
  out (on Mock.driver (PyStr "all") w) = Raise (KeyError 0x1234) /\
  out (info Mock.driver w) = Raise (KeyError 0x1234).
Proof.
  intros w.
  destruct (unknown_product_key_error Mock.driver w eq_refl) as (H1 & _ & H3).
  split.
  - destruct (H1 On (PyStr "all")) as (_ & _ & _ & H). apply H. reflexivity.
  - cbv zeta in H3. rewrite H3. reflexivity.
Defined.

(** C10 as stated fails for the float: [status(1.0)] raises [TypeError]
    and reads nothing, where [status(1)] reads the outlet. *)
Lemma float_outlet_raises_type_error :
  let w := Mock.handle SISPM Mock.idle in
  out (status Mock.driver (PyFloat float_one) w) = Raise TypeError /\
  transfers (tr (status Mock.driver (PyFloat float_one) w)) = [] /\
  out (status Mock.driver (PyInt 1) w) = Ok (RBool false) /\
  transfers (tr (status Mock.driver (PyInt 1) w))
  = [EvTransfer (status_request 1) (Ok [3; 0; 0; 0; 0; 0])].
Proof. vm_compute. repeat split. Qed.

Lemma outlet_by_equality_witness :
  let w := Mock.handle MSISPM_OLD Mock.idle in
  on Mock.driver (PyBool true) w = on Mock.driver (PyInt 1) w /\
  out (on Mock.driver (PyFloat float_one) w) = Raise TypeError.
Proof.
  intros w.
  destruct (outlet_by_equality Mock.driver w On [1] "1-socket mSiS-PM" eq_refl)
    as (H1 & _ & _ & _ & _ & _ & H5).
  split; [exact H1 | apply H5; reflexivity].
Defined.

Section Toggle.

Context {D : Type} (drv : Driver D).

Lemma on_starts_with_read (n : Z) (w : World D) :
  1 <= n <= 4 ->
  exists rest, tr (_on drv (PyInt n) w) = tr (_status drv (PyInt n) w) ++ rest.
Proof.
  intros Hn. rewrite (on_run drv n w Hn). cbv zeta.
  destruct (out (_status drv (PyInt n) w)) as [[|] | e]; cbn [tr];
    try (exists []; now rewrite app_nil_r).
  destruct (out (_usb_command drv (write_request n true) _)); cbn [tr];
    eexists; reflexivity.
Qed.

Lemma off_starts_with_read (n : Z) (w : World D) :
  1 <= n <= 4 ->
  exists rest, tr (_off drv (PyInt n) w) = tr (_status drv (PyInt n) w) ++ rest.
Proof.
  intros Hn. rewrite (off_run drv n w Hn). cbv zeta.
  destruct (out (_status drv (PyInt n) w)) as [[|] | e]; cbn [tr];
    try (exists []; now rewrite app_nil_r).
  destruct (out (_usb_command drv (write_request n false) _)); cbn [tr];
    eexists; reflexivity.
Qed.

(** C5.  For an outlet number [n] of the device whose first status read
    [r0] returns [s]: [toggle(n)] is that read followed by the run [r1]
    of [_off(n)] when [s] is true and of [_on(n)] otherwise, and returns
    what [r1] returns.  [r0] is one status transfer; [r1] begins with a
    status read of its own; and the control transfers of the whole call
    are those of [r0] followed by those of [r1]. *)
Theorem toggle_reads_then_branches (w : World D) (n : Z) (outs : list Z)
    (label : string) (s : bool) :
  DEVICE_TYPES !! idProduct w = Some (outs, label) ->
  In n outs ->
  let r0 := _status drv (PyInt n) w in
  out r0 = Ok s ->
  let r1 := (if s then _off drv (PyInt n) else _on drv (PyInt n)) (st r0) in
  toggle_func drv (PyInt n) w
  = mkRun (match out r1 with Ok b => Ok (RBool b) | Raise e => Raise e end)
          (st r1) (tr r0 ++ tr r1) /\
  one_transfer (status_request n) (tr r0) /\
  (exists rest, tr r1 = tr (_status drv (PyInt n) (st r0)) ++ rest) /\
  transfers (tr (toggle drv (PyInt n) w))
  = transfers (tr r0) ++ transfers (tr r1).
Proof.
  intros Hty Hin r0 Hs r1.
  pose proof (valid_outlet_range _ _ _ _ Hty Hin) as Hn.
  assert (Hf : toggle_func drv (PyInt n) w
               = mkRun (match out r1 with
                        | Ok b => Ok (RBool b) | Raise e => Raise e end)
                       (st r1) (tr r0 ++ tr r1)).
  { change (toggle_func drv) with (func_of drv Toggle).
    rewrite (func_of_valid drv Toggle n w outs label Hty Hin). cbv zeta.
    cbn [single]. unfold toggle_expr.
    rewrite (bind_Ok _ _ _ s Hs). cbn [out st tr]. fold r0.
    subst r1. destruct s; reflexivity. }
  split; [exact Hf |]. split; [now apply status_one_transfer |]. split.
  - subst r1. destruct s; [now apply off_starts_with_read
                          | now apply on_starts_with_read].
  - unfold toggle. rewrite autodispose_transfers, Hf. cbn [tr].
    apply transfers_app.
Qed.

End Toggle.

(** Outlet 3 of a four-socket device, off. *)
Lemma toggle_reads_then_branches_witness :
  let w := Mock.handle SISPM Mock.idle in
  out (toggle Mock.driver (PyInt 3) w) = Ok (RBool true) /\
  transfers (tr (toggle Mock.driver (PyInt 3) w))
  = [EvTransfer (status_request 3) (Ok [9; 0; 0; 0; 0; 0]);
     EvTransfer (status_request 3) (Ok [9; 0; 0; 0; 0; 0]);
     EvTransfer (write_request 3 true) (Ok [9; 3; 0; 0; 0; 0]);
     EvTransfer (status_request 3) (Ok [9; 1; 0; 0; 0; 0])].
Proof.
  intros w.
  destruct (toggle_reads_then_branches Mock.driver w 3 [1; 2; 3; 4]
              "4-socket SiS-PM" false eq_refl
              (or_intror (or_intror (or_introl eq_refl))) eq_refl)
    as (H1 & _ & _ & H4).
  split.
  - unfold toggle. rewrite autodispose_run, H1. reflexivity.
  - rewrite H4. reflexivity.
Defined.

(** ** ['all'] *)

Section All.

Context {D : Type} (drv : Driver D).

Lemma py_in_all (outs : list Z) : py_in (PyStr "all") outs = false.
Proof. induction outs as [| i outs IH]; [reflexivity | exact IH]. Qed.

Lemma world_after_cons {A} (r : Run D A) (runs : list (Run D A)) (w : World D) :
  world_after (r :: runs) w = world_after runs (st r).
Proof. reflexivity. Qed.

Lemma each_outlet_length (f : pyval -> M D bool) (keys : list Z) :
  forall w, length (each_outlet f keys w) = length keys.
Proof.
  induction keys as [| i keys IH]; intros w; [reflexivity |].
  cbn [each_outlet]. cbv zeta. cbn [length]. now rewrite IH.
Qed.

(** The dict built by the comprehension when every run returns. *)
Lemma dict_of_runs (f : pyval -> M D bool) (keys : list Z) :
  forall (w : World D) (acc : gmap Z bool) (bs : list bool),
    map out (each_outlet f keys w) = map Ok bs ->
    exists d,
      dict_of f keys acc w
      = mkRun (Ok d) (world_after (each_outlet f keys w) w)
              (concat (map tr (each_outlet f keys w))) /\
      dom d = list_to_set keys ∪ dom acc /\
      (forall i, i ∉ keys -> d !! i = acc !! i) /\
      (NoDup keys ->
       forall k i b, keys !! k = Some i -> bs !! k = Some b -> d !! i = Some b).
Proof.
  induction keys as [| i keys IH]; intros w acc bs Hbs.
  - exists acc. cbn [dict_of each_outlet]. repeat split.
    + set_solver.
    + intros _ k i b Hk. discriminate.
  - cbn [each_outlet] in *. cbv zeta in *.
    destruct bs as [| b bs]; [discriminate |].
    cbn [map] in Hbs. injection Hbs as Hb Hbs.
    destruct (IH (st (f (PyInt i) w)) (<[i := b]> acc) bs Hbs)
      as (d & Hd & Hdom & Hout & Hin).
    exists d. split; [| split; [| split]].
    + cbn [dict_of]. rewrite (bind_Ok _ _ _ b Hb). rewrite Hd.
      cbn [out st tr map concat]. now rewrite world_after_cons.
    + rewrite Hdom, dom_insert_L. set_solver.
    + intros j Hj. rewrite not_elem_of_cons in Hj. destruct Hj as (Hne & Hj).
      rewrite (Hout j Hj). now apply lookup_insert_ne.
    + intros Hnd k j c Hk Hc. apply NoDup_cons in Hnd as (Hni & Hnd).
      destruct k as [| k]; cbn in Hk, Hc.
      * injection Hk as <-. injection Hc as <-.
        rewrite (Hout i Hni). apply lookup_insert_eq.
      * now apply (Hin Hnd k).
Qed.

Lemma device_types_NoDup (pid : Z) (outs : list Z) (label : string) :
  DEVICE_TYPES !! pid = Some (outs, label) -> NoDup outs.
Proof.
  intros H. destruct (device_types_cases _ _ _ H) as [-> | ->];
    repeat constructor; set_solver.
Qed.

(** C6.  On a device of a known type with the outlet tuple [outs], a
    method called with ['all'] runs its single-outlet operation once for
    each outlet, in the order of [outs], each from the state the one
    before left ([runs]).  When those runs return the booleans [bs],
    whatever their values, the method returns a dict [d] whose keys are
    the outlets of [outs] and which maps the outlet at each position to
    the boolean returned at that position; the transfers of the call are
    those of the runs, in order; a value the call returns is [d], and the
    caller does receive [d], the [finally] clause ending without an
    exception of its own.  On one
    outlet of the device the method returns the boolean of the same
    single-outlet operation. *)
Theorem all_outlets (w : World D) (m : method) (outs : list Z) (label : string)
    (bs : list bool) :
  DEVICE_TYPES !! idProduct w = Some (outs, label) ->
  let runs := each_outlet (single drv m) outs w in
  map out runs = map Ok bs ->
  exists d,
    func_of drv m (PyStr "all") w
    = mkRun (Ok (RDict d)) (world_after runs w) (concat (map tr runs)) /\
    length runs = length outs /\
    dom d = list_to_set outs /\
    (forall k i b, outs !! k = Some i -> bs !! k = Some b -> d !! i = Some b) /\
    transfers (tr (public drv m (PyStr "all") w))
    = concat (map (fun r => transfers (tr r)) runs) /\
    (forall res, out (public drv m (PyStr "all") w) = Ok res -> res = RDict d) /\
    (release_passes drv (world_after runs w) ->
     out (public drv m (PyStr "all") w) = Ok (RDict d)) /\
    (forall i w', In i outs -> idProduct w' = idProduct w ->
       out (func_of drv m (PyInt i) w')
       = match out (single drv m (PyInt i) w') with
         | Ok b => Ok (RBool b)
         | Raise e => Raise e
         end).
Proof.
  intros Hty runs Hbs.
  destruct (dict_of_runs (single drv m) outs w ∅ bs Hbs)
    as (d & Hd & Hdom & _ & Hin).
  fold runs in Hd.
  assert (Hf : func_of drv m (PyStr "all") w
               = mkRun (Ok (RDict d)) (world_after runs w)
                       (concat (map tr runs))).
  { rewrite func_of_shape.
    rewrite (bind_pure _ _ _ _ (outlets_known w outs label Hty)).
    rewrite py_in_all. cbn [py_eq]. 
    destruct (string_dec "all" "all") as [_ | Hne]; [| congruence].
    rewrite (bind_pure _ _ _ _ (outlets_known w outs label Hty)).
    unfold bind. rewrite Hd. cbn [out st tr ret]. now rewrite app_nil_r. }
  exists d. split; [exact Hf |]. split; [apply each_outlet_length |].
  split; [rewrite Hdom, dom_empty_L; set_solver |].
  split; [apply Hin; eapply device_types_NoDup; eassumption |].
  split; [| split; [| split]].
  - rewrite public_decorated, autodispose_transfers, Hf. cbn [tr].
    unfold transfers. clear. induction runs as [| r runs IH]; [reflexivity |].
    cbn [map concat]. now rewrite List.filter_app, IH.
  - intros res. rewrite public_decorated, autodispose_run, Hf. cbv zeta.
    cbn [out st].
    destruct (out (release_after_call drv (world_after runs w)));
      [intros [= <-]; reflexivity | discriminate].
  - intros Hp. rewrite public_decorated, autodispose_run, Hf. cbv zeta.
    cbn [out st]. unfold release_passes in Hp. now rewrite Hp.
  - intros i w' Hi Hw'.
    rewrite (func_of_valid drv m i w' outs label); [reflexivity | | exact Hi].
    now rewrite Hw'.
Qed.

End All.

(** [on('all')] on a four-socket device with outlet 2 on and whose writes
    change nothing: the three other outlets report a failure, and all four
    are there. *)
Lemma all_outlets_witness :
  let w := Mock.handle SISPM (Mock.mkState 0 [2] true (Ok tt) Mock.serial0) in
  exists d,
    out (on Mock.driver (PyStr "all") w) = Ok (RDict d) /\
    dom d = list_to_set [1; 2; 3; 4] /\
    d !! 1 = Some false /\ d !! 2 = Some true /\
    d !! 3 = Some false /\ d !! 4 = Some false.
Proof.
  intros w.
  destruct (all_outlets Mock.driver w On [1; 2; 3; 4] "4-socket SiS-PM"
              [false; true; false; false] eq_refl eq_refl)
    as (d & _ & _ & Hdom & Hval & _ & _ & Hout & _).
  exists d. split; [apply Hout; reflexivity |]. split; [exact Hdom |].
  repeat split.
  - apply (Hval 0%nat); reflexivity.
  - apply (Hval 1%nat); reflexivity.
  - apply (Hval 2%nat); reflexivity.
  - apply (Hval 3%nat); reflexivity.
Defined.

(** ** The serial number *)

Lemma byte_hex (b : Z) :
  0 <= b < 256 -> zfill 2 (str_from 2 (hex b)) = two_hex_digits b.
Proof.
  intros Hb.
  assert (Hall : forallb (fun k => String.eqb
                            (zfill 2 (str_from 2 (hex (Z.of_nat k))))
                            (two_hex_digits (Z.of_nat k)))
                         (seq 0 256) = true) by (vm_compute; reflexivity).
  rewrite forallb_forall in Hall.
  specialize (Hall (Z.to_nat b)).
  rewrite Z2Nat.id in Hall by lia.
  apply String.eqb_eq, Hall, in_seq. lia.
Qed.

Lemma format_serial_bytes (bs : list Z) :
  Forall (fun b => 0 <= b < 256) bs -> format_serial bs = colon_hex bs.
Proof.
  intros H. unfold format_serial, colon_hex. f_equal.
  induction H as [| b bs Hb _ IH]; [reflexivity |].
  cbn [map]. now rewrite IH, (byte_hex b Hb).
Qed.

Section Serial.

Context {D : Type} (drv : Driver D).

(** C7.  For six bytes read from the device, the [serial] property returns
    them as the specification says: each byte as two lowercase hexadecimal
    digits, joined by colons, 17 characters in all; and the bytes
    [1A 02 FF 00 0B 9C] give ["1a:02:ff:00:0b:9c"]. *)
Theorem serial_format :
  (forall bs : list Z,
     length bs = 6%nat ->
     Forall (fun b => 0 <= b < 256) bs ->
     format_serial bs = colon_hex bs /\
     String.length (colon_hex bs) = 17%nat /\
     (forall w, out (_get_serial drv w) = Ok (Some bs) ->
        serial drv w
        = mkRun (Ok (colon_hex bs)) (st (_get_serial drv w))
                (tr (_get_serial drv w)))) /\
  format_serial [0x1A; 0x02; 0xFF; 0x00; 0x0B; 0x9C] = "1a:02:ff:00:0b:9c"%string.
Proof.
  split; [| reflexivity].
  intros bs Hlen Hbs. split; [now apply format_serial_bytes |]. split.
  - do 7 (destruct bs as [| ? bs]; try discriminate). reflexivity.
  - intros w Hw. unfold serial. rewrite (bind_Ok _ _ _ (Some bs) Hw).
    rewrite (format_serial_bytes bs Hbs). cbn [out st tr ret].
    now rewrite app_nil_r.
Qed.

End Serial.

Lemma serial_format_witness :
  out (serial Mock.driver (Mock.handle SISPM Mock.idle))
  = Ok "1a:02:ff:00:0b:9c"%string.
Proof.
  destruct (serial_format Mock.driver) as (H & _).
  destruct (H Mock.serial0 eq_refl) as (_ & _ & Hs).
  - repeat constructor; lia.
  - rewrite (Hs (Mock.handle SISPM Mock.idle) eq_refl). reflexivity.
Defined.

(** ** The directory *)

Section Directory.

Context {D : Type} (drv : Driver D).

Lemma scan_step_other (serial_ : string) (h : World D) (pending : list (World D)) :
  reads_other drv serial_ h ->
  scan_sessions drv serial_ (h :: pending)
  = mkScan (scan_out (scan_sessions drv serial_ pending))
           (tr (read_serial_of drv h)
              :: scan_traces (scan_sessions drv serial_ pending)).
Proof.
  intros (x & Hx & Hne). cbn [scan_sessions]. fold (read_serial_of drv).
  cbv zeta. rewrite Hx.
  apply String.eqb_neq in Hne. now rewrite Hne.
Qed.

Lemma scan_step_found (serial_ : string) (h : World D) (pending : list (World D)) :
  out (read_serial_of drv h) = Ok serial_ ->
  scan_sessions drv serial_ (h :: pending)
  = mkScan (Ok (Some (st (read_serial_of drv h)))) [tr (read_serial_of drv h)].
Proof.
  intros Hx. cbn [scan_sessions]. fold (read_serial_of drv).
  cbv zeta. rewrite Hx. now rewrite String.eqb_refl.
Qed.

Lemma scan_found (serial_ : string) (pre : list (World D)) (h : World D)
    (post : list (World D)) :
  Forall (reads_other drv serial_) pre ->
  out (read_serial_of drv h) = Ok serial_ ->
  scan_sessions drv serial_ (pre ++ h :: post)
  = mkScan (Ok (Some (st (read_serial_of drv h))))
           (map (fun h' => tr (read_serial_of drv h')) (pre ++ [h])).
Proof.
  intros Hpre Hh. induction Hpre as [| h' pre Hh' _ IH].
  - now apply scan_step_found.
  - cbn [app]. rewrite (scan_step_other _ _ _ Hh'), IH. reflexivity.
Qed.

Lemma scan_not_found (serial_ : string) (pending : list (World D)) :
  Forall (reads_other drv serial_) pending ->
  scan_sessions drv serial_ pending
  = mkScan (Ok None) (map (fun h' => tr (read_serial_of drv h')) pending).
Proof.
  intros H. induction H as [| h' pre Hh' _ IH]; [reflexivity |].
  rewrite (scan_step_other _ _ _ Hh'), IH. reflexivity.
Qed.

(** C8.  [get_device_by_serial] goes through the handles of the
    enumeration whose product id is accepted, in order.  When the serials
    read before the handle [h] differ from the input and the serial read
    from [h] is the input, it returns the session of [h], and no later
    handle is opened; when every serial read differs from the input, it
    returns [None]. *)
Theorem find_by_serial (serial_ : string) (products : list Z)
    (found : list (World D)) :
  let pending := get_devices products found in
  let result := get_device_by_serial drv serial_ products found in
  (forall h, In h pending <-> In h found /\ In (idProduct h) products) /\
  (forall pre h post,
     pending = pre ++ h :: post ->
     Forall (reads_other drv serial_) pre ->
     out (read_serial_of drv h) = Ok serial_ ->
     scan_out result = Ok (Some (st (read_serial_of drv h))) /\
     scan_traces result
     = map (fun h' => tr (read_serial_of drv h')) (pre ++ [h])) /\
  (Forall (reads_other drv serial_) pending ->
   scan_out result = Ok None /\
   scan_traces result = map (fun h' => tr (read_serial_of drv h')) pending).
Proof.
  intros pending result. split; [| split].
  - intros h. unfold pending, get_devices. rewrite filter_In.
    split; intros (H1 & H2); split; try exact H1.
    + apply existsb_exists in H2 as (p & Hp & He).
      apply Z.eqb_eq in He. now subst.
    + apply existsb_exists. exists (idProduct h). split; [exact H2 |].
      apply Z.eqb_refl.
  - intros pre h post Hp Hpre Hh. unfold result, get_device_by_serial.
    fold pending. rewrite Hp, (scan_found _ _ _ _ Hpre Hh). auto.
  - intros Hall. unfold result, get_device_by_serial. fold pending.
    rewrite (scan_not_found _ _ Hall). auto.
Qed.

End Directory.

(** Three handles on the bus: one of a product that is not accepted, then
    two outlets with different serials. *)
Lemma find_by_serial_witness :
  let bus :=
    [Mock.handle 0x1234 Mock.idle;
     Mock.handle SISPM Mock.idle;
     Mock.handle MSISPM_OLD (Mock.mkState 0 [] false (Ok tt) [1; 2; 3; 4; 5; 6])] in
  (exists s,
     scan_out (get_device_by_serial Mock.driver "01:02:03:04:05:06"
                 default_products bus) = Ok (Some s) /\
     idProduct s = MSISPM_OLD) /\
  scan_out (get_device_by_serial Mock.driver "1a:02:ff:00:0b:9c"
              default_products bus)
  = Ok (Some (Mock.handle SISPM Mock.idle)) /\
  length (scan_traces (get_device_by_serial Mock.driver "1a:02:ff:00:0b:9c"
                         default_products bus)) = 1%nat /\
  scan_out (get_device_by_serial Mock.driver "00:00:00:00:00:00"
              default_products bus) = Ok None.
Proof.
  intros bus.
  assert (H1 : reads_other Mock.driver "01:02:03:04:05:06"
                 (Mock.handle SISPM Mock.idle)).
  { exists "1a:02:ff:00:0b:9c"%string. split; [reflexivity | discriminate]. }
  assert (H2 : reads_other Mock.driver "00:00:00:00:00:00"
                 (Mock.handle SISPM Mock.idle)).
  { exists "1a:02:ff:00:0b:9c"%string. split; [reflexivity | discriminate]. }
  assert (H3 : reads_other Mock.driver "00:00:00:00:00:00"
                 (Mock.handle MSISPM_OLD
                    (Mock.mkState 0 [] false (Ok tt) [1; 2; 3; 4; 5; 6]))).
  { exists "01:02:03:04:05:06"%string. split; [reflexivity | discriminate]. }
  split; [| split; [| split]].
  - destruct (find_by_serial Mock.driver "01:02:03:04:05:06" default_products bus)
      as (_ & H & _).
    destruct (H [Mock.handle SISPM Mock.idle]
                (Mock.handle MSISPM_OLD
                   (Mock.mkState 0 [] false (Ok tt) [1; 2; 3; 4; 5; 6])) []
                eq_refl (Forall_cons_2 _ _ _ H1 (Forall_nil_2 _)) eq_refl)
      as (Ho & _).
    eexists. split; [exact Ho | reflexivity].
  - destruct (find_by_serial Mock.driver "1a:02:ff:00:0b:9c" default_products bus)
      as (_ & H & _).
    destruct (H [] (Mock.handle SISPM Mock.idle)
                [Mock.handle MSISPM_OLD
                   (Mock.mkState 0 [] false (Ok tt) [1; 2; 3; 4; 5; 6])]
                eq_refl (Forall_nil_2 _) eq_refl) as (Ho & _).
    rewrite Ho. reflexivity.
  - destruct (find_by_serial Mock.driver "1a:02:ff:00:0b:9c" default_products bus)
      as (_ & H & _).
    destruct (H [] (Mock.handle SISPM Mock.idle)
                [Mock.handle MSISPM_OLD
                   (Mock.mkState 0 [] false (Ok tt) [1; 2; 3; 4; 5; 6])]
                eq_refl (Forall_nil_2 _) eq_refl) as (_ & Ht).
    rewrite Ht. reflexivity.
  - destruct (find_by_serial Mock.driver "00:00:00:00:00:00" default_products bus)
      as (_ & _ & H).
    apply H. repeat constructor; assumption.
Defined.

(** * Further properties *)

(** ** The executor *)

Section ExecutorMore.

Context {D : Type} (drv : Driver D).

(** X1.  An exception of the driver that is not a [USBError] is not
    retried: when the first attempt raises [e] of another class,
    [_usb_command] raises [e] after that single attempt, without a
    delay. *)
Theorem usb_command_no_retry_other (r : Request) (w : World D) (e : exn) :
  snd (drv_ctrl_transfer drv (dev w) r) = Raise e ->
  is_USBError e = false ->
  _usb_command drv r w
  = mkRun (Raise e) (set_dev w (fst (drv_ctrl_transfer drv (dev w) r)))
          [EvTransfer r (Raise e)].
Proof.
  intros He Hu.
  apply (usb_command_run drv r w [] (Raise e)).
  - simpl; lia.
  - intros n Hn. injection Hn as ->. discriminate.
  - simpl. now rewrite He.
Qed.

(** X2.  The loop of [_usb_command] never runs out: the function returns
    a reply or raises, it never returns [None]. *)
Theorem usb_command_never_None (r : Request) (w : World D) :
  out (_usb_command drv r w) <> Ok None.
Proof.
  destruct (usb_command_shape drv r w) as (errs & final & d' & _ & ->).
  destruct final; discriminate.
Qed.

End ExecutorMore.

Lemma usb_command_no_retry_other_witness :
  _usb_command Broken.driver serial_request (Broken.handle true)
  = mkRun (Raise (OtherError "NotImplementedError")) (Broken.handle true)
          [EvTransfer serial_request (Raise (OtherError "NotImplementedError"))].
Proof.
  apply (usb_command_no_retry_other Broken.driver serial_request
           (Broken.handle true) (OtherError "NotImplementedError"));
    reflexivity.
Defined.

(** ** What the methods put on the bus *)

Section Emits.

Context {D : Type} (drv : Driver D) (P : Event -> Prop).

Lemma emits_ret {A} (a : A) : emits P (@ret D A a).
Proof. intros w. constructor. Qed.

Lemma emits_raise {A} (e : exn) : emits P (@raise D A e).
Proof. intros w. constructor. Qed.

Lemma emits_lift {A} (r : Res A) : emits P (@lift D A r).
Proof. intros w. constructor. Qed.

Lemma emits_attr {A} (x : World D -> A) : emits P (attr x).
Proof. intros w. constructor. Qed.

Lemma emits_bind {A B} (m : M D A) (f : A -> M D B) :
  emits P m -> (forall a, emits P (f a)) -> emits P (bind m f).
Proof.
  intros Hm Hf w. unfold bind. cbv zeta.
  destruct (out (m w)) as [a | e]; cbn [tr]; [| apply Hm].
  apply Forall_app. split; [apply Hm | apply Hf].
Qed.

(** The continuation only has to behave on the value that is passed on. *)
Lemma emits_bind_lift {A B} (r : Res A) (f : A -> M D B) :
  (forall a, r = Ok a -> emits P (f a)) -> emits P (bind (lift r) f).
Proof.
  intros Hf w. unfold bind, lift. cbn [out st tr].
  destruct r as [a | e]; cbn [tr]; [| constructor].
  apply (Hf a eq_refl).
Qed.

Lemma emits_try_except {A} (m : M D A) (h : Z -> M D A) :
  emits P m -> (forall n, emits P (h n)) -> emits P (try_except_USBError m h).
Proof.
  intros Hm Hh w. unfold try_except_USBError. cbv zeta.
  destruct (out (m w)) as [a | e]; [apply Hm |].
  destruct e; try apply Hm.
  cbn [tr]. apply Forall_app. split; [apply Hm | apply Hh].
Qed.

Lemma emits_sleep : P (EvSleep 50) -> emits P (@sleep D 50).
Proof. intros H w. repeat constructor. exact H. Qed.

Lemma emits_ctrl_transfer (r : Request) :
  (forall o, P (EvTransfer r o)) -> emits P (ctrl_transfer drv r).
Proof. intros H w. repeat constructor. apply H. Qed.

Lemma emits_usb_command (r : Request) :
  (forall o, P (EvTransfer r o)) -> P (EvSleep 50) ->
  emits P (_usb_command drv r).
Proof.
  intros Ht Hs. unfold _usb_command. generalize tries_range as range.
  induction range as [| i range IH]; cbn [usb_command_loop].
  - apply emits_ret.
  - apply emits_bind.
    + unfold usb_command_round. apply emits_try_except.
      * apply emits_bind; [now apply emits_ctrl_transfer |].
        intros a. apply emits_ret.
      * intros n. destruct (i =? 0)%nat; [apply emits_raise |].
        apply emits_bind; [now apply emits_sleep | intros a; apply emits_ret].
    + intros [v |]; [apply emits_ret | exact IH].
Qed.

Lemma emits_device_type : emits P (@device_type D).
Proof.
  unfold device_type. apply emits_bind; [apply emits_attr |].
  intros pid. destruct (DEVICE_TYPES !! pid); [apply emits_ret | apply emits_raise].
Qed.

Lemma emits_outlets : emits P (@outlets D).
Proof.
  unfold outlets. apply emits_bind; [apply emits_device_type |].
  intros x. apply emits_ret.
Qed.

Lemma emits_dict_of (f : pyval -> M D bool) (keys : list Z) :
  (forall v, emits P (f v)) -> forall acc, emits P (dict_of f keys acc).
Proof.
  intros Hf. induction keys as [| i keys IH]; intros acc; cbn [dict_of].
  - apply emits_ret.
  - apply emits_bind; [apply Hf | intros b; apply IH].
Qed.

Lemma emits_release_after_call :
  (forall o, P (EvDispose o)) -> emits P (release_after_call drv).
Proof.
  intros H w. destruct (autodispose_flag w) eqn:E.
  - rewrite release_after_call_on by exact E. repeat constructor. apply H.
  - rewrite release_after_call_off by exact E. constructor.
Qed.

Lemma emits_autodispose {A} (func : M D A) :
  emits P func -> (forall o, P (EvDispose o)) -> emits P (autodispose drv func).
Proof.
  intros Hf Hd w. rewrite autodispose_run. cbv zeta. cbn [tr].
  apply Forall_app. split; [apply Hf | now apply emits_release_after_call].
Qed.

Lemma emits_func_of (m : method) (num : pyval) :
  (forall v, emits P (single drv m v)) -> emits P (func_of drv m num).
Proof.
  intros Hs. rewrite func_of_shape.
  apply emits_bind; [apply emits_outlets |]. intros outs.
  destruct (py_in num outs).
  - apply emits_bind; [apply Hs | intros b; apply emits_ret].
  - destruct (py_eq num (PyStr "all")); [| apply emits_raise].
    apply emits_bind; [apply emits_outlets |]. intros outs'.
    apply emits_bind; [now apply emits_dict_of | intros d; apply emits_ret].
Qed.

End Emits.

Section Protocol.

Context {D : Type} (drv : Driver D).

Lemma setitem_length (b : list Z) (i : nat) (v : pyval) (b' : list Z) :
  bytearray_setitem b i v = Ok b' -> length b' = length b.
Proof.
  unfold bytearray_setitem. destruct (i <? length b)%nat; [| discriminate].
  destruct v; try discriminate.
  - destruct ((0 <=? z) && (z <? 256)); [| discriminate].
    intros [= <-]. apply length_insert.
  - intros [= <-]. apply length_insert.
Qed.

Lemma status_emits (P : Event -> Prop) (num : pyval) :
  (forall r o, req_index r = 0 -> req_timeout r = 500 ->
               length (req_data r) = 6%nat ->
               req_type r = 0xa1 -> req_code r = 0x01 ->
               P (EvTransfer r o)) ->
  P (EvSleep 50) ->
  emits P (_status drv num).
Proof.
  intros Ht Hs. unfold _status.
  apply emits_bind_lift. intros t _.
  apply emits_bind_lift. intros bytes Hb.
  apply emits_bind_lift. intros t' _.
  apply emits_bind_lift. intros value _.
  apply emits_bind.
  - apply emits_usb_command; [| exact Hs].
    intros o. apply Ht; try reflexivity.
    cbn [req_data]. now rewrite (setitem_length _ _ _ _ Hb).
  - intros r. apply emits_bind; [apply emits_lift | intros b; apply emits_ret].
Qed.

Lemma protocol_read (r : Request) (o : Res (list Z)) :
  req_index r = 0 -> req_timeout r = 500 -> length (req_data r) = 6%nat ->
  req_type r = 0xa1 -> req_code r = 0x01 -> protocol_event (EvTransfer r o).
Proof. intros. cbn. auto 6. Qed.

Lemma status_protocol (num : pyval) : emits protocol_event (_status drv num).
Proof. apply status_emits; [apply protocol_read | reflexivity]. Qed.

Lemma on_protocol (num : pyval) : emits protocol_event (_on drv num).
Proof.
  unfold _on. apply emits_bind; [apply status_protocol |].
  intros [|]; [apply emits_ret |].
  apply emits_bind_lift. intros t _.
  apply emits_bind_lift. intros bytes Hb.
  apply emits_bind_lift. intros bytes' Hb'.
  apply emits_bind_lift. intros t' _.
  apply emits_bind_lift. intros value _.
  apply emits_bind; [| intros _; apply status_protocol].
  apply emits_usb_command; [| reflexivity].
  intros o. cbn.
  rewrite (setitem_length _ _ _ _ Hb'), (setitem_length _ _ _ _ Hb). auto 6.
Qed.

Lemma off_protocol (num : pyval) : emits protocol_event (_off drv num).
Proof.
  unfold _off. apply emits_bind; [apply status_protocol |].
  intros [|]; [| apply emits_ret]. cbn [negb].
  apply emits_bind_lift. intros t _.
  apply emits_bind_lift. intros bytes Hb.
  apply emits_bind_lift. intros t' _.
  apply emits_bind_lift. intros value _.
  apply emits_bind.
  - apply emits_usb_command; [| reflexivity].
    intros o. cbn. rewrite (setitem_length _ _ _ _ Hb). auto 6.
  - intros _. apply emits_bind; [apply status_protocol |].
    intros s. apply emits_ret.
Qed.

Lemma single_protocol (m : method) (num : pyval) :
  emits protocol_event (single drv m num).
Proof.
  destruct m; cbn [single].
  - apply status_protocol.
  - apply on_protocol.
  - apply off_protocol.
  - unfold toggle_expr. apply emits_bind; [apply status_protocol |].
    intros [|]; [apply off_protocol | apply on_protocol].
Qed.

Lemma serial_protocol : emits protocol_event (serial drv).
Proof.
  unfold serial. apply emits_bind.
  - unfold _get_serial. apply emits_autodispose; [| intros o; exact I].
    apply emits_usb_command; [| reflexivity]. intros o. cbn. auto 6.
  - intros [bs |]; [apply emits_ret | apply emits_raise].
Qed.

(** X3.  Whatever the device and the argument, every transfer that
    [status], [on], [off], [toggle], [serial] or [info] sends has index 0,
    a timeout of 500 ms and a buffer of six bytes, and is a read (request
    type [0xa1], request [0x01]) or a write ([0x21], [0x09]); every delay
    lasts 50 ms; and none of them configures the device again. *)
Theorem methods_speak_protocol (m : method) (num : pyval) :
  emits protocol_event (public drv m num) /\
  emits protocol_event (serial drv) /\
  emits protocol_event (info drv).
Proof.
  split; [| split].
  - rewrite public_decorated.
    apply emits_autodispose; [| intros o; exact I].
    apply emits_func_of. intros v. apply single_protocol.
  - apply serial_protocol.
  - unfold info.
    repeat (apply emits_bind;
            [first [apply emits_attr | apply emits_ret | apply serial_protocol
                   | apply emits_device_type | apply emits_outlets] | intros ?]).
    apply emits_ret.
Qed.

(** X4.  [status] only reads: whatever the device and the argument (an
    outlet, ['all'] or anything else), no write transfer is attempted. *)
Theorem status_never_writes (num : pyval) (w : World D) :
  writes (tr (status drv num w)) = 0%nat.
Proof.
  assert (H : emits not_write (status drv num)).
  { unfold status. apply emits_autodispose; [| intros o; reflexivity].
    apply (emits_func_of drv not_write Status). intros v. cbn [single].
    apply status_emits; [| reflexivity].
    intros r o _ _ _ _ Hc. unfold not_write. cbn. now rewrite Hc. }
  specialize (H w). unfold writes.
  induction H as [| e t He _ IH]; [reflexivity |].
  cbn [List.filter]. unfold not_write in He. now rewrite He.
Qed.

End Protocol.

(** ** How much a call can put on the bus *)

Lemma delays_app (t1 t2 : list Event) :
  delays (t1 ++ t2) = (delays t1 + delays t2)%nat.
Proof. unfold delays. now rewrite List.filter_app, length_app. Qed.

Section Traffic.

Context {D : Type} (drv : Driver D).

Lemma traffic_mono {A} (a b : nat) (m : M D A) :
  (a <= b)%nat -> traffic a m -> traffic b m.
Proof. intros Hab Hm w. destruct (Hm w). split; lia. Qed.

Lemma traffic_ret {A} (a : A) : traffic 0 (@ret D A a).
Proof. intros w. split; cbn; lia. Qed.

Lemma traffic_raise {A} (e : exn) : traffic 0 (@raise D A e).
Proof. intros w. split; cbn; lia. Qed.

Lemma traffic_lift {A} (r : Res A) : traffic 0 (@lift D A r).
Proof. intros w. split; cbn; lia. Qed.

Lemma traffic_bind {A B} (a b : nat) (m : M D A) (f : A -> M D B) :
  traffic a m -> (forall x, traffic b (f x)) -> traffic (a + b) (bind m f).
Proof.
  intros Hm Hf w. destruct (Hm w) as (H1 & H2).
  unfold bind. cbv zeta. destruct (out (m w)) as [x | e]; cbn [tr].
  - destruct (Hf x (st (m w))) as (H3 & H4).
    rewrite transfers_app, length_app, delays_app. split; lia.
  - split; lia.
Qed.

Lemma traffic_usb_command (r : Request) : traffic 1 (_usb_command drv r).
Proof.
  intros w.
  destruct (usb_command_shape drv r w) as (errs & final & d' & Hlen & ->).
  cbn [tr]. rewrite retry_trace_transfers, retry_trace_delays. split; lia.
Qed.

Lemma traffic_status (num : pyval) : traffic 1 (_status drv num).
Proof.
  unfold _status.
  do 4 (apply (traffic_bind 0); [apply traffic_lift | intros ?]).
  apply (traffic_bind 1 0); [apply traffic_usb_command | intros ?].
  apply (traffic_bind 0 0); [apply traffic_lift | intros ?; apply traffic_ret].
Qed.

Lemma traffic_on (num : pyval) : traffic 3 (_on drv num).
Proof.
  unfold _on. apply (traffic_bind 1 2); [apply traffic_status |].
  intros [|]; [apply (traffic_mono 0); [lia | apply traffic_ret] |].
  do 5 (apply (traffic_bind 0); [apply traffic_lift | intros ?]).
  apply (traffic_bind 1 1); [apply traffic_usb_command | intros ?].
  apply traffic_status.
Qed.

Lemma traffic_off (num : pyval) : traffic 3 (_off drv num).
Proof.
  unfold _off. apply (traffic_bind 1 2); [apply traffic_status |].
  intros [|]; [| apply (traffic_mono 0); [lia | apply traffic_ret]].
  cbn [negb].
  do 4 (apply (traffic_bind 0); [apply traffic_lift | intros ?]).
  apply (traffic_bind 1 1); [apply traffic_usb_command | intros ?].
  apply (traffic_bind 1 0); [apply traffic_status | intros ?; apply traffic_ret].
Qed.

Lemma traffic_single (m : method) (num : pyval) :
  traffic (calls m) (single drv m num).
Proof.
  destruct m; cbn [single calls].
  - apply traffic_status.
  - apply traffic_on.
  - apply traffic_off.
  - unfold toggle_expr. apply (traffic_bind 1 3); [apply traffic_status |].
    intros [|]; [apply traffic_off | apply traffic_on].
Qed.

Lemma traffic_dict_of (k : nat) (f : pyval -> M D bool) (keys : list Z) :
  (forall v, traffic k (f v)) ->
  forall acc, traffic (length keys * k) (dict_of f keys acc).
Proof.
  intros Hf. induction keys as [| i keys IH]; intros acc; cbn [dict_of length].
  - apply traffic_ret.
  - apply (traffic_bind k (length keys * k)); [apply Hf | intros b; apply IH].
Qed.

Lemma traffic_autodispose {A} (k : nat) (func : M D A) :
  traffic k func -> traffic k (autodispose drv func).
Proof.
  intros Hf w. destruct (Hf w) as (H1 & H2).
  rewrite autodispose_transfers. split; [exact H1 |].
  rewrite autodispose_run. cbv zeta. cbn [tr]. rewrite delays_app.
  assert (Hz : delays (tr (release_after_call drv (st (func w)))) = 0%nat).
  { generalize (st (func w)) as w1. intros w1.
    destruct (autodispose_flag w1) eqn:E.
    - rewrite release_after_call_on by exact E. reflexivity.
    - rewrite release_after_call_off by exact E. reflexivity. }
  lia.
Qed.

Lemma device_types_length (pid : Z) (outs : list Z) (label : string) :
  DEVICE_TYPES !! pid = Some (outs, label) -> (length outs <= 4)%nat.
Proof.
  intros H. destruct (device_types_cases _ _ _ H) as [-> | ->]; simpl; lia.
Qed.

Lemma traffic_func_of (m : method) (num : pyval) :
  traffic (4 * calls m) (func_of drv m num) /\
  (py_eq num (PyStr "all") = false -> traffic (calls m) (func_of drv m num)).
Proof.
  assert (Hcases : forall w : World D,
            (exists outs label,
                DEVICE_TYPES !! idProduct w = Some (outs, label)) \/
            DEVICE_TYPES !! idProduct w = None).
  { intros w. destruct (DEVICE_TYPES !! idProduct w) as [[outs label] |];
      [left; eauto | right; reflexivity]. }
  assert (Hone : forall w outs label,
            DEVICE_TYPES !! idProduct w = Some (outs, label) ->
            py_in num outs = true \/ py_eq num (PyStr "all") = false ->
            (length (transfers (tr (func_of drv m num w))) <= 5 * calls m)%nat /\
            (delays (tr (func_of drv m num w)) <= 4 * calls m)%nat).
  { intros w outs label Hty Hor. rewrite func_of_shape.
    rewrite (bind_pure _ _ _ _ (outlets_known w outs label Hty)).
    destruct (py_in num outs).
    - pose proof (traffic_bind (calls m) 0 (single drv m num)
                    (fun b => ret (RBool b)) (traffic_single m num)
                    (fun b => traffic_ret _) w) as (H1 & H2).
      split; lia.
    - destruct Hor as [Hor | Hor]; [discriminate |]. rewrite Hor.
      split; cbn; lia. }
  assert (Hunknown : forall w,
            DEVICE_TYPES !! idProduct w = None ->
            tr (func_of drv m num w) = []).
  { intros w Hty. rewrite func_of_shape.
    now rewrite (bind_fail _ _ _ _ _ _ (outlets_unknown w Hty)). }
  split.
  - intros w. destruct (Hcases w) as [(outs & label & Hty) | Hty].
    + destruct (py_in num outs) eqn:Ein.
      * destruct (Hone w outs label Hty) as (H1 & H2); [left; exact Ein |].
        split; lia.
      * destruct (py_eq num (PyStr "all")) eqn:Eall.
        -- rewrite func_of_shape.
           rewrite (bind_pure _ _ _ _ (outlets_known w outs label Hty)).
           rewrite Ein, Eall.
           rewrite (bind_pure _ _ _ _ (outlets_known w outs label Hty)).
           pose proof (traffic_bind (length outs * calls m) 0
                         (dict_of (single drv m) outs ∅)
                         (fun d => ret (RDict d))
                         (traffic_dict_of (calls m) _ outs
                            (traffic_single m) ∅)
                         (fun d => traffic_ret _) w) as (H1 & H2).
           pose proof (device_types_length _ _ _ Hty) as Hl.
           split; nia.
        -- destruct (Hone w outs label Hty) as (H1 & H2); [right; reflexivity |].
           split; lia.
    + rewrite (Hunknown w Hty). split; cbn; lia.
  - intros Hall w. destruct (Hcases w) as [(outs & label & Hty) | Hty].
    + apply (Hone w outs label Hty). now right.
    + rewrite (Hunknown w Hty). split; cbn; lia.
Qed.

(** X5.  Whatever the device does, a call of a public method goes through
    the executor at most [calls m] times for one outlet (once for
    [status], three times for [on] and [off], four times for [toggle]),
    that is at most five attempts and four delays each time; with
    ['all'] it does at most four times as much. *)
Theorem bus_traffic_bounded (m : method) (num : pyval) :
  traffic (4 * calls m) (public drv m num) /\
  (py_eq num (PyStr "all") = false -> traffic (calls m) (public drv m num)).
Proof.
  rewrite public_decorated. destruct (traffic_func_of m num) as (H1 & H2).
  split.
  - now apply traffic_autodispose.
  - intros Hall. apply traffic_autodispose. now apply H2.
Qed.

End Traffic.

(** [toggle(3)] on a device of which four transfers fail. *)
Lemma bus_traffic_bounded_witness :
  let w := Mock.handle SISPM (Mock.mkState 4 [] false (Ok tt) Mock.serial0) in
  (length (transfers (tr (toggle Mock.driver (PyInt 3) w))) <= 20)%nat /\
  (delays (tr (toggle Mock.driver (PyInt 3) w)) <= 16)%nat.
Proof.
  intros w.
  destruct (bus_traffic_bounded Mock.driver Toggle (PyInt 3)) as (_ & H).
  exact (H eq_refl w).
Defined.

(** ** What a returned boolean rests on *)

Section Confirmation.

Context {D : Type} (drv : Driver D).

(** The status read that returns [s] ends with the reply it was decoded
    from. *)
Lemma status_last (n : Z) (w : World D) (s : bool) :
  1 <= n <= 4 ->
  out (_status drv (PyInt n) w) = Ok s ->
  exists reply b,
    last (tr (_status drv (PyInt n) w))
    = Some (EvTransfer (status_request n) (Ok reply)) /\
    reply !! 1%nat = Some b /\ s = negb (b =? 0).
Proof.
  intros Hn. rewrite (status_run drv n w Hn). cbv zeta. cbn [out tr].
  destruct (usb_command_shape drv (status_request n) w)
    as (errs & final & d' & _ & ->).
  cbn [out tr]. rewrite retry_trace_last.
  destruct final as [reply | e]; cbn [as_return]; [| discriminate].
  unfold status_of_reply, py_getitem.
  destruct (reply !! 1%nat) as [b |] eqn:Eb; [| discriminate].
  intros [= <-]. exists reply, b. auto.
Qed.

Lemma last_app_Some_r {A} (l1 l2 : list A) (x : A) :
  last l2 = Some x -> last (l1 ++ l2) = Some x.
Proof. intros H. rewrite last_app, H. reflexivity. Qed.

(** X6.  For an outlet number [n] of the device: [_status(n)] returns
    true exactly when byte 1 of the reply is not zero; a reply of fewer
    than two bytes raises [IndexError]; and an error of the executor is
    raised as it is. *)
Theorem status_decodes_byte_one (w : World D) (n : Z) (outs : list Z)
    (label : string) :
  DEVICE_TYPES !! idProduct w = Some (outs, label) ->
  In n outs ->
  let u := _usb_command drv (status_request n) w in
  tr (_status drv (PyInt n) w) = tr u /\
  st (_status drv (PyInt n) w) = st u /\
  (forall reply b, out u = Ok (Some reply) -> reply !! 1%nat = Some b ->
     out (_status drv (PyInt n) w) = Ok (negb (b =? 0))) /\
  (forall reply, out u = Ok (Some reply) -> (length reply < 2)%nat ->
     out (_status drv (PyInt n) w) = Raise IndexError) /\
  (forall e, out u = Raise e -> out (_status drv (PyInt n) w) = Raise e).
Proof.
  intros Hty Hin.
  pose proof (valid_outlet_range _ _ _ _ Hty Hin) as Hn.
  rewrite (status_run drv n w Hn). cbv zeta. cbn [out st tr].
  generalize (_usb_command drv (status_request n) w) as u. intros u.
  split; [reflexivity |]. split; [reflexivity |]. split; [| split].
  - intros reply b -> Hb. unfold status_of_reply, py_getitem. now rewrite Hb.
  - intros reply -> Hl. unfold status_of_reply, py_getitem.
    now rewrite (lookup_ge_None_2 reply 1) by lia.
  - intros e ->. reflexivity.
Qed.

(** X7.  For an outlet number [n] of the device, the boolean that [_on]
    and [_off] return always rests on the last thing the bus saw: a status
    read of outlet [n] that was answered.  [_on] returns true exactly when
    byte 1 of that answer is not zero, [_off] exactly when it is zero. *)
Theorem on_off_result_is_last_read (w : World D) (n : Z) (outs : list Z)
    (label : string) (s : bool) :
  DEVICE_TYPES !! idProduct w = Some (outs, label) ->
  In n outs ->
  (out (_on drv (PyInt n) w) = Ok s ->
   exists reply b,
     last (tr (_on drv (PyInt n) w))
     = Some (EvTransfer (status_request n) (Ok reply)) /\
     reply !! 1%nat = Some b /\ s = negb (b =? 0)) /\
  (out (_off drv (PyInt n) w) = Ok s ->
   exists reply b,
     last (tr (_off drv (PyInt n) w))
     = Some (EvTransfer (status_request n) (Ok reply)) /\
     reply !! 1%nat = Some b /\ s = (b =? 0)).
Proof.
  intros Hty Hin.
  pose proof (valid_outlet_range _ _ _ _ Hty Hin) as Hn.
  rewrite (on_run drv n w Hn), (off_run drv n w Hn). cbv zeta.
  set (w1 := st (_usb_command drv (write_request n true)
                   (st (_status drv (PyInt n) w)))).
  set (w2 := st (_usb_command drv (write_request n false)
                   (st (_status drv (PyInt n) w)))).
  pose proof (fun s0 => status_last n w1 s0 Hn) as H1.
  pose proof (fun s0 => status_last n w2 s0 Hn) as H2.
  pose proof (fun s0 => status_last n w s0 Hn) as H0.
  revert H0 H1 H2.
  generalize (_status drv (PyInt n) w1) as r1.
  generalize (_status drv (PyInt n) w2) as r2.
  generalize (_usb_command drv (write_request n true)
                (st (_status drv (PyInt n) w))) as u1.
  generalize (_usb_command drv (write_request n false)
                (st (_status drv (PyInt n) w))) as u2.
  generalize (_status drv (PyInt n) w) as r0.
  clearbody w1 w2.
  intros [o0 w0 t0] [ou2 wu2 tu2] [ou1 wu1 tu1] [o2 v2 t2] [o1 v1 t1].
  cbn [out st tr]. intros H0 H1 H2.
  split.
  - destruct o0 as [[|] | e]; [| | discriminate].
    + intros [= <-]. exact (H0 true eq_refl).
    + destruct ou1; [| discriminate]. cbn [out tr]. intros Hs.
      destruct (H1 s Hs) as (reply & b & Hl & Hb & Hsb).
      exists reply, b. split; [| auto].
      rewrite app_assoc. now apply last_app_Some_r.
  - destruct o0 as [[|] | e]; [| | discriminate].
    + destruct ou2; [| discriminate]. cbn [out tr].
      destruct o2 as [s' | e]; [| discriminate].
      intros [= <-].
      destruct (H2 s' eq_refl) as (reply & b & Hl & Hb & Hsb).
      exists reply, b. split; [| split; [exact Hb |]].
      * rewrite app_assoc. now apply last_app_Some_r.
      * rewrite Hsb. now destruct (b =? 0).
    + intros [= <-].
      destruct (H0 false eq_refl) as (reply & b & Hl & Hb & Hsb).
      exists reply, b. split; [exact Hl | split; [exact Hb |]].
      destruct (b =? 0); [reflexivity | discriminate].
Qed.

End Confirmation.

Lemma status_decodes_byte_one_witness :
  out (_status Mock.driver (PyInt 2)
         (Mock.handle SISPM (Mock.mkState 0 [2] false (Ok tt) Mock.serial0)))
  = Ok true.
Proof.
  destruct (status_decodes_byte_one Mock.driver
              (Mock.handle SISPM (Mock.mkState 0 [2] false (Ok tt) Mock.serial0))
              2 [1; 2; 3; 4] "4-socket SiS-PM" eq_refl
              (or_intror (or_introl eq_refl))) as (_ & _ & H & _).
  exact (H [6; 1; 0; 0; 0; 0] 1 eq_refl eq_refl).
Defined.

(** [on(2)] on a device whose writes change nothing: the answer is false,
    and the last event is the read that says so. *)
Lemma on_off_result_is_last_read_witness :
  let w := Mock.handle SISPM (Mock.mkState 0 [] true (Ok tt) Mock.serial0) in
  exists reply b,
    last (tr (_on Mock.driver (PyInt 2) w))
    = Some (EvTransfer (status_request 2) (Ok reply)) /\
    reply !! 1%nat = Some b /\ false = negb (b =? 0).
Proof.
  intros w.
  destruct (on_off_result_is_last_read Mock.driver w 2 [1; 2; 3; 4]
              "4-socket SiS-PM" false eq_refl (or_intror (or_introl eq_refl)))
    as (H & _).
  apply H. reflexivity.
Defined.

(** ** Sessions and scripts *)

Section Sessions.

Context {D : Type} (drv : Driver D).

Lemma public_keeps (m : method) (num : pyval) (w : World D) :
  idProduct (st (public drv m num w)) = idProduct w /\
  autodispose_flag (st (public drv m num w)) = autodispose_flag w.
Proof.
  rewrite public_decorated. apply autodispose_keeps. apply quiet_func_of.
Qed.

Lemma public_releases (m : method) (num : pyval) (w : World D) :
  releases (tr (public drv m num w))
  = if autodispose_flag w then 1%nat else 0%nat.
Proof.
  rewrite public_decorated.
  pose proof (autodispose_law drv (func_of drv m num) w
                (quiet_func_of drv m num)) as H.
  unfold released_once in H. cbv zeta in H.
  destruct (autodispose_flag w).
  - now destruct H as (_ & H & _).
  - now destruct H as (_ & H & _).
Qed.

Lemma total_releases_cons {A} (r : Run D A) (runs : list (Run D A)) :
  total_releases (r :: runs) = (releases (tr r) + total_releases runs)%nat.
Proof. reflexivity. Qed.

(** X8.  No public call changes the flag or the product id of a session,
    whatever it is given and however it ends.  So over any script of
    calls a session with the flag off never releases the device, and a
    session with the flag on releases it once per call. *)
Theorem script_releases (script : list (method * pyval)) (w : World D) :
  let runs := run_calls drv script w in
  Forall (fun r => autodispose_flag (st r) = autodispose_flag w /\
                   idProduct (st r) = idProduct w) runs /\
  total_releases runs
  = (if autodispose_flag w then length script else 0%nat).
Proof.
  cbv zeta. revert w.
  induction script as [| [m num] script IH]; intros w.
  - split; [constructor |]. now destruct (autodispose_flag w).
  - cbn [run_calls]. cbv zeta.
    destruct (public_keeps m num w) as (Hid & Hflag).
    destruct (IH (st (public drv m num w))) as (IH1 & IH2).
    rewrite Hflag, Hid in IH1. rewrite Hflag in IH2.
    split.
    + constructor; [auto | exact IH1].
    + rewrite total_releases_cons, IH2, public_releases. cbn [length].
      now destruct (autodispose_flag w).
Qed.

(** X9.  A session that [OutletDevice(device)] has built has the flag on,
    whatever the handle held before, so each public call on it releases
    the device once; building it configures the device once and sends
    nothing else; and when the configuration fails, its error is raised
    and there is no session. *)
Theorem new_session_autodisposes (w : World D) :
  let c := drv_set_configuration drv (dev w) in
  let s := OutletDevice_init drv w in
  tr s = [EvSetConfiguration (snd c)] /\
  idProduct (st s) = idProduct w /\
  (snd c = Ok tt ->
   out s = Ok tt /\ autodispose_flag (st s) = true /\
   forall m num, releases (tr (public drv m num (st s))) = 1%nat) /\
  (forall e, snd c = Raise e -> out s = Raise e).
Proof.
  cbv zeta. unfold OutletDevice_init, bind, set_configuration. cbn [out st tr].
  destruct (snd (drv_set_configuration drv (dev w))) as [[] | e] eqn:E;
    cbn [out st tr].
  - split; [reflexivity |]. split; [reflexivity |]. split.
    + intros _. split; [reflexivity |]. split; [reflexivity |].
      intros m num. now rewrite public_releases.
    + intros e He. discriminate.
  - split; [reflexivity |]. split; [reflexivity |]. split.
    + discriminate.
    + intros e' [= <-]. reflexivity.
Qed.

End Sessions.

(** On the mock the configuration succeeds; on the broken device it
    fails. *)
Lemma new_session_autodisposes_witness :
  (let s := OutletDevice_init Mock.driver
              (set_autodispose (Mock.handle SISPM Mock.idle) false) in
   out s = Ok tt /\ autodispose_flag (st s) = true /\
   releases (tr (status Mock.driver (PyInt 1) (st s))) = 1%nat) /\
  out (OutletDevice_init Broken.driver (Broken.handle false))
  = Raise (USBError 19).
Proof.
  split.
  - intros s.
    destruct (new_session_autodisposes Mock.driver
                (set_autodispose (Mock.handle SISPM Mock.idle) false))
      as (_ & _ & H & _).
    destruct (H eq_refl) as (H1 & H2 & H3).
    split; [exact H1 |]. split; [exact H2 |]. exact (H3 Status (PyInt 1)).
  - destruct (new_session_autodisposes Broken.driver (Broken.handle false))
      as (_ & _ & _ & H).
    exact (H (USBError 19) eq_refl).
Defined.

(** ** The serial string identifies the bytes *)

Lemma two_hex_digits_inj (b c : Z) :
  0 <= b < 256 -> 0 <= c < 256 ->
  two_hex_digits b = two_hex_digits c -> b = c.
Proof.
  intros Hb Hc H.
  assert (Hall : forallb (fun i => forallb (fun j =>
                    implb (String.eqb (two_hex_digits (Z.of_nat i))
                                      (two_hex_digits (Z.of_nat j)))
                          (Nat.eqb i j)) (seq 0 256)) (seq 0 256) = true)
    by (vm_compute; reflexivity).
  rewrite forallb_forall in Hall.
  specialize (Hall (Z.to_nat b)). rewrite forallb_forall in Hall.
  specialize (Hall ltac:(apply in_seq; lia) (Z.to_nat c)
                   ltac:(apply in_seq; lia)).
  rewrite !Z2Nat.id in Hall by lia.
  apply String.eqb_eq in H. rewrite H in Hall. cbn [implb] in Hall.
  apply Nat.eqb_eq in Hall. lia.
Qed.

Lemma colon_hex_cons2 (b b' : Z) (bs : list Z) :
  colon_hex (b :: b' :: bs)
  = String (hex_digit (b / 16))
      (String (hex_digit (b mod 16)) (String ":" (colon_hex (b' :: bs)))).
Proof. reflexivity. Qed.

Lemma colon_hex_inj (bs cs : list Z) :
  Forall (fun b => 0 <= b < 256) bs ->
  Forall (fun b => 0 <= b < 256) cs ->
  colon_hex bs = colon_hex cs -> bs = cs.
Proof.
  intros Hbs. revert cs.
  induction Hbs as [| b bs Hb Hbs IH]; intros cs Hcs H.
  - destruct cs as [| c [| c' cs]]; [reflexivity | discriminate | discriminate].
  - destruct Hcs as [| c cs Hc Hcs]; [destruct bs; discriminate |].
    destruct bs as [| b' bs], cs as [| c' cs].
    + f_equal. now apply two_hex_digits_inj.
    + rewrite colon_hex_cons2 in H. discriminate.
    + rewrite colon_hex_cons2 in H. discriminate.
    + rewrite !colon_hex_cons2 in H. injection H as H1 H2 H3.
      f_equal.
      * apply two_hex_digits_inj; [exact Hb | exact Hc |].
        unfold two_hex_digits. now rewrite H1, H2.
      * now apply IH.
Qed.

(** X10.  The serial string determines the bytes it was made from: two
    replies of bytes that give the same string are the same reply,
    whatever their lengths. *)
Theorem format_serial_injective (bs cs : list Z) :
  Forall (fun b => 0 <= b < 256) bs ->
  Forall (fun b => 0 <= b < 256) cs ->
  format_serial bs = format_serial cs -> bs = cs.
Proof.
  intros Hbs Hcs. rewrite !format_serial_bytes by assumption.
  now apply colon_hex_inj.
Qed.

Lemma format_serial_injective_witness :
  format_serial [0x1A; 0x02] = "1a:02"%string /\
  [0x1A; 0x02] = Z.of_nat <$> [26%nat; 2%nat].
Proof.
  split; [reflexivity |].
  apply format_serial_injective;
    [repeat constructor; lia | repeat constructor; lia | reflexivity].
Defined.

(** ** The [info] record *)

Lemma device_types_known (pid : Z) :
  is_Some (DEVICE_TYPES !! pid) <-> In pid default_products.
Proof.
  unfold DEVICE_TYPES, default_products. split.
  - intros [x H].
    repeat (rewrite lookup_insert in H; case_decide; [subst; simpl; auto 6 |]).
    rewrite lookup_empty in H. discriminate.
  - simpl. intros [<- | [<- | [<- | [<- | []]]]]; vm_compute; eauto.
Qed.

Lemma in_hex_values (x : Z) : 0 <= x < 16 -> In x hex_values.
Proof.
  intros H.
  assert (x = 0 \/ x = 1 \/ x = 2 \/ x = 3 \/ x = 4 \/ x = 5 \/ x = 6 \/
          x = 7 \/ x = 8 \/ x = 9 \/ x = 10 \/ x = 11 \/ x = 12 \/
          x = 13 \/ x = 14 \/ x = 15) as Hx by lia.
  unfold hex_values. simpl. intuition auto.
Qed.

Lemma id_hex (v : Z) :
  0 <= v < 65536 -> zfill 4 (str_from 2 (hex v)) = four_hex_digits v.
Proof.
  intros Hv.
  assert (Hall :
    forallb (fun a => forallb (fun b => forallb (fun c => forallb (fun d =>
      let k := 4096 * a + 256 * b + 16 * c + d in
      String.eqb (zfill 4 (str_from 2 (hex k))) (four_hex_digits k))
      hex_values) hex_values) hex_values) hex_values = true)
    by (vm_compute; reflexivity).
  rewrite forallb_forall in Hall.
  specialize (Hall (v / 4096) ltac:(apply in_hex_values;
    split; [apply Z.div_pos; lia | apply Z.div_lt_upper_bound; lia])).
  rewrite forallb_forall in Hall.
  specialize (Hall (v / 256 mod 16) ltac:(apply in_hex_values;
    apply Z.mod_pos_bound; lia)).
  rewrite forallb_forall in Hall.
  specialize (Hall (v / 16 mod 16) ltac:(apply in_hex_values;
    apply Z.mod_pos_bound; lia)).
  rewrite forallb_forall in Hall.
  specialize (Hall (v mod 16) ltac:(apply in_hex_values;
    apply Z.mod_pos_bound; lia)).
  cbv zeta in Hall.
  replace (4096 * (v / 4096) + 256 * (v / 256 mod 16) + 16 * (v / 16 mod 16)
           + v mod 16) with v in Hall.
  - now apply String.eqb_eq.
  - pose proof (Z.div_mod v 16 ltac:(lia)).
    pose proof (Z.div_mod (v / 16) 16 ltac:(lia)).
    pose proof (Z.div_mod (v / 256) 16 ltac:(lia)).
    replace (v / 256) with (v / 16 / 16) in *
      by (rewrite Z.div_div by lia; reflexivity).
    replace (v / 4096) with (v / 16 / 16 / 16)
      by (rewrite !Z.div_div by lia; reflexivity).
    assert (v / 16 / 16 / 16 mod 16 = v / 16 / 16 / 16).
    { apply Z.mod_small. split.
      - repeat apply Z.div_pos; lia.
      - rewrite !Z.div_div by lia. apply Z.div_lt_upper_bound; lia. }
    lia.
Qed.

Section Descriptor.

Context {D : Type} (drv : Driver D).

Lemma keeps_ret {A} (a : A) : keeps_descriptor (@ret D A a).
Proof. intros w. reflexivity. Qed.

Lemma keeps_raise {A} (e : exn) : keeps_descriptor (@raise D A e).
Proof. intros w. reflexivity. Qed.

Lemma keeps_bind {A B} (m : M D A) (f : A -> M D B) :
  keeps_descriptor m -> (forall a, keeps_descriptor (f a)) ->
  keeps_descriptor (bind m f).
Proof.
  intros Hm Hf w. unfold bind. cbv zeta.
  destruct (out (m w)) as [a | e]; cbn [st]; [| apply Hm].
  now rewrite Hf, Hm.
Qed.

Lemma keeps_try_except {A} (m : M D A) (h : Z -> M D A) :
  keeps_descriptor m -> (forall n, keeps_descriptor (h n)) ->
  keeps_descriptor (try_except_USBError m h).
Proof.
  intros Hm Hh w. unfold try_except_USBError. cbv zeta.
  destruct (out (m w)) as [a | e]; [apply Hm |].
  destruct e; try apply Hm. cbn [st]. now rewrite Hh, Hm.
Qed.

Lemma keeps_usb_command (r : Request) : keeps_descriptor (_usb_command drv r).
Proof.
  unfold _usb_command. generalize tries_range as range.
  induction range as [| i range IH]; cbn [usb_command_loop].
  - apply keeps_ret.
  - apply keeps_bind.
    + unfold usb_command_round. apply keeps_try_except.
      * apply keeps_bind; [intros w; reflexivity | intros a; apply keeps_ret].
      * intros n. destruct (i =? 0)%nat; [apply keeps_raise |].
        apply keeps_bind; [intros w; reflexivity | intros a; apply keeps_ret].
    + intros [v |]; [apply keeps_ret | exact IH].
Qed.

Lemma keeps_release_after_call : keeps_descriptor (release_after_call drv).
Proof.
  intros w. destruct (autodispose_flag w) eqn:E.
  - rewrite release_after_call_on by exact E. reflexivity.
  - rewrite release_after_call_off by exact E. reflexivity.
Qed.

Lemma keeps_serial : keeps_descriptor (serial drv).
Proof.
  unfold serial. apply keeps_bind.
  - intros w. unfold _get_serial. rewrite autodispose_run. cbv zeta. cbn [st].
    now rewrite keeps_release_after_call, keeps_usb_command.
  - intros [bs |]; [apply keeps_ret | apply keeps_raise].
Qed.

(** X11.  On a device of a known type whose vendor id fits sixteen bits,
    once the serial has been read [info] returns the record of the
    handle: manufacturer and product as they are, the two ids as ["0x"]
    and four lowercase hexadecimal digits (padded with zeros), the
    serial string, the label and the outlet tuple of the table, bus and
    address; and it puts on the bus what the serial read does, nothing
    more. *)
Theorem info_record (w : World D) (outs : list Z) (label : string)
    (x : string) :
  DEVICE_TYPES !! idProduct w = Some (outs, label) ->
  0 <= idVendor w < 65536 ->
  out (serial drv w) = Ok x ->
  info drv w
  = mkRun (Ok (mkInfo (manufacturer w) (product w)
                 ("0x" +:+ four_hex_digits (idVendor w))
                 ("0x" +:+ four_hex_digits (idProduct w))
                 x label outs (bus w) (address w)))
          (st (serial drv w)) (tr (serial drv w)).
Proof.
  intros Hty Hv Hx.
  assert (Hp : 0 <= idProduct w < 65536).
  { assert (Hin : In (idProduct w) default_products)
      by (apply device_types_known; rewrite Hty; eauto).
    simpl in Hin. destruct Hin as [<- | [<- | [<- | [<- | []]]]];
      vm_compute; split; (discriminate || reflexivity). }
  rewrite (info_run drv w). cbv zeta.
  pose proof (keeps_serial w) as Hk. revert Hx Hk.
  generalize (serial drv w) as s. intros [o w' t]. cbn [out st tr].
  intros -> Hk. unfold descriptor in Hk. injection Hk as H1 H2 H3 H4 H5 H6.
  assert (Hd : device_type w' = mkRun (Ok (outs, label)) w' []).
  { unfold device_type. rewrite bind_attr, H4, Hty. reflexivity. }
  rewrite (bind_pure _ _ _ _ Hd).
  rewrite (bind_pure _ _ _ _ (outlets_known w' outs label
                                ltac:(now rewrite H4))).
  rewrite !bind_attr. cbn [ret out st tr snd].
  rewrite H5, H6, (id_hex _ Hv), (id_hex _ Hp), app_nil_r. reflexivity.
Qed.

End Descriptor.

Lemma info_record_witness :
  out (info Mock.driver (Mock.handle SISPM Mock.idle))
  = Ok (mkInfo "Gembird" "SiS-PM" "0x04b4" "0xfd11" "1a:02:ff:00:0b:9c"
          "4-socket SiS-PM" [1; 2; 3; 4] 1 2).
Proof.
  rewrite (info_record Mock.driver (Mock.handle SISPM Mock.idle)
             [1; 2; 3; 4] "4-socket SiS-PM" "1a:02:ff:00:0b:9c"
             eq_refl ltac:(vm_compute; split; [discriminate | reflexivity])
             eq_refl).
  reflexivity.
Defined.

(** ** The directory, further *)

Section DirectoryMore.

Context {D : Type} (drv : Driver D).

Lemma new_session_descriptor (h : World D) :
  idProduct (st (OutletDevice_init drv h)) = idProduct h.
Proof.
  unfold OutletDevice_init, bind, set_configuration. cbn [out st tr].
  destruct (snd (drv_set_configuration drv (dev h))); reflexivity.
Qed.

(** X12.  With the default [products], [get_devices] keeps exactly the
    handles whose product id is a key of [DEVICE_TYPES]: every session it
    yields has an outlet tuple, which is not empty, and its [outlets]
    property does not raise. *)
Theorem default_enumeration_known (found : list (World D)) (h : World D) :
  (In h (get_devices default_products found)
   <-> In h found /\ is_Some (DEVICE_TYPES !! idProduct h)) /\
  (In h (get_devices default_products found) ->
   exists outs,
     outlets h = mkRun (Ok outs) h [] /\ outs <> [] /\
     outlets (st (OutletDevice_init drv h))
     = mkRun (Ok outs) (st (OutletDevice_init drv h)) []).
Proof.
  assert (Hiff : In h (get_devices default_products found)
                 <-> In h found /\ is_Some (DEVICE_TYPES !! idProduct h)).
  { unfold get_devices. rewrite filter_In, device_types_known.
    split; intros (H1 & H2); split; try exact H1.
    - apply existsb_exists in H2 as (p & Hp & He).
      apply Z.eqb_eq in He. now subst.
    - apply existsb_exists. exists (idProduct h). split; [exact H2 |].
      apply Z.eqb_refl. }
  split; [exact Hiff |].
  intros Hin. apply Hiff in Hin as (_ & [[outs label] Hty]).
  exists outs. split; [now apply (outlets_known h outs label) |]. split.
  - destruct (device_types_cases _ _ _ Hty) as [-> | ->]; discriminate.
  - apply (outlets_known _ outs label).
    now rewrite new_session_descriptor.
Qed.

(** X13.  [get_device_by_serial] does not pass over a device it cannot
    read: when the serials read before the handle [h] differ from the
    input and opening [h] or reading its serial raises [e], the search
    raises [e], and no later handle is opened, whatever its serial. *)
Theorem find_by_serial_raises (serial_ : string) (products : list Z)
    (found pre post : list (World D)) (h : World D) (e : exn) :
  get_devices products found = pre ++ h :: post ->
  Forall (reads_other drv serial_) pre ->
  out (read_serial_of drv h) = Raise e ->
  let result := get_device_by_serial drv serial_ products found in
  scan_out result = Raise e /\
  scan_traces result
  = map (fun h' => tr (read_serial_of drv h')) (pre ++ [h]).
Proof.
  intros Hp Hpre He. cbv zeta. unfold get_device_by_serial. rewrite Hp.
  clear Hp. induction Hpre as [| h' pre Hh' _ IH].
  - cbn [app scan_sessions]. fold (read_serial_of drv). cbv zeta.
    rewrite He. split; reflexivity.
  - cbn [app]. rewrite (scan_step_other drv _ _ _ Hh'). cbn [scan_out scan_traces].
    destruct IH as (IH1 & IH2). rewrite IH1, IH2. split; reflexivity.
Qed.

End DirectoryMore.

(** The first outlet on the bus cannot be read (five transport errors);
    the second has the serial that is looked for. *)
Lemma find_by_serial_raises_witness :
  let bus :=
    [Mock.handle SISPM (Mock.mkState 5 [] false (Ok tt) Mock.serial0);
     Mock.handle MSISPM_OLD (Mock.mkState 0 [] false (Ok tt) [1; 2; 3; 4; 5; 6])] in
  scan_out (get_device_by_serial Mock.driver "01:02:03:04:05:06"
              default_products bus) = Raise (USBError 110) /\
  length (scan_traces (get_device_by_serial Mock.driver "01:02:03:04:05:06"
                         default_products bus)) = 1%nat.
Proof.
  intros bus.
  destruct (find_by_serial_raises Mock.driver "01:02:03:04:05:06"
              default_products bus []
              [Mock.handle MSISPM_OLD
                 (Mock.mkState 0 [] false (Ok tt) [1; 2; 3; 4; 5; 6])]
              (Mock.handle SISPM (Mock.mkState 5 [] false (Ok tt) Mock.serial0))
              (USBError 110) eq_refl (Forall_nil_2 _) eq_refl) as (H1 & H2).
  split; [exact H1 |]. rewrite H2. reflexivity.
Defined.

Lemma default_enumeration_known_witness :
  let h := Mock.handle MSISPM_FLASH Mock.idle in
  exists outs, outlets h = mkRun (Ok outs) h [] /\ outs <> [].
Proof.
  intros h.
  destruct (default_enumeration_known Mock.driver
              [Mock.handle 0x1234 Mock.idle; h] h) as (_ & H).
  destruct H as (outs & H1 & H2 & _).
  - vm_compute. left. reflexivity.
  - exists outs. auto.
Defined.

(** ** When a call on ['all'] fails, and what never reaches the bus *)

Section AllMore.

Context {D : Type} (drv : Driver D).

Lemma dict_of_raise (f : pyval -> M D bool) (keys : list Z) :
  forall (w : World D) (acc : gmap Z bool) (e : exn),
    first_raise (each_outlet f keys w) = Some e ->
    dict_of f keys acc w
    = mkRun (Raise e) (world_after (until_raise (each_outlet f keys w)) w)
            (concat (map tr (until_raise (each_outlet f keys w)))).
Proof.
  induction keys as [| i keys IH]; intros w acc e H; [discriminate |].
  cbn [each_outlet dict_of] in *. cbv zeta in *.
  cbn [first_raise until_raise] in *.
  destruct (out (f (PyInt i) w)) as [b | e0] eqn:E.
  - rewrite (bind_Ok _ _ _ b E).
    rewrite (IH (st (f (PyInt i) w)) (<[i := b]> acc) e H).
    reflexivity.
  - injection H as ->. rewrite (bind_Raise _ _ _ e E).
    cbn [map concat]. now rewrite app_nil_r.
Qed.

Lemma until_raise_length {A} (runs : list (Run D A)) :
  (length (until_raise runs) <= length runs)%nat.
Proof.
  induction runs as [| r runs IH]; [reflexivity |].
  cbn [until_raise]. destruct (out r); cbn [length]; lia.
Qed.

(** X14.  On a device of a known type, when with ['all'] the operation of
    one outlet raises [e], the method raises [e] and the call returns no
    dict: the outlets before that one have been operated, in order, and
    stay as they are, and the outlets after it are not touched.  The
    caller receives [e] when the [finally] clause of the decorator ends
    without an exception of its own; when the release raises an error
    that is not a [USBError], the caller receives that error in place
    of [e]. *)
Theorem all_stops_at_first_error (w : World D) (m : method) (outs : list Z)
    (label : string) (e : exn) :
  DEVICE_TYPES !! idProduct w = Some (outs, label) ->
  let runs := each_outlet (single drv m) outs w in
  first_raise runs = Some e ->
  func_of drv m (PyStr "all") w
  = mkRun (Raise e) (world_after (until_raise runs) w)
          (concat (map tr (until_raise runs))) /\
  (length (until_raise runs) <= length outs)%nat /\
  transfers (tr (public drv m (PyStr "all") w))
  = transfers (concat (map tr (until_raise runs))) /\
  (forall res, out (public drv m (PyStr "all") w) <> Ok res) /\
  (release_passes drv (world_after (until_raise runs) w) ->
   out (public drv m (PyStr "all") w) = Raise e) /\
  (forall e',
     out (release_after_call drv (world_after (until_raise runs) w))
     = Raise e' ->
     out (public drv m (PyStr "all") w) = Raise e').
Proof.
  intros Hty runs He.
  assert (Hf : func_of drv m (PyStr "all") w
               = mkRun (Raise e) (world_after (until_raise runs) w)
                       (concat (map tr (until_raise runs)))).
  { rewrite func_of_shape.
    rewrite (bind_pure _ _ _ _ (outlets_known w outs label Hty)).
    rewrite py_in_all. cbn [py_eq].
    destruct (string_dec "all" "all") as [_ | Hne]; [| congruence].
    rewrite (bind_pure _ _ _ _ (outlets_known w outs label Hty)).
    unfold bind. rewrite (dict_of_raise _ _ _ _ _ He). reflexivity. }
  split; [exact Hf |]. split.
  - rewrite <- (each_outlet_length (single drv m) outs w).
    apply until_raise_length.
  - rewrite public_decorated, autodispose_transfers, Hf. cbn [tr].
    split; [reflexivity |].
    rewrite autodispose_run, Hf. cbv zeta. cbn [out st].
    split; [| split].
    + intros res.
      destruct (out (release_after_call drv _)); discriminate.
    + intros Hp. unfold release_passes in Hp. now rewrite Hp.
    + intros e' He'. now rewrite He'.
Qed.

Lemma single_float_any (m : method) (f : spec_float) (w : World D) :
  single drv m (PyFloat f) w = mkRun (Raise TypeError) w [].
Proof. destruct m; reflexivity. Qed.

Lemma py_in_never (num : pyval) (outs : list Z) :
  never_an_outlet num -> (forall f, num <> PyFloat f) ->
  py_in num outs = false.
Proof.
  intros Hn Hf. destruct num; cbn in Hn; try contradiction.
  - now destruct (Hf f).
  - induction outs as [| i outs IH]; [reflexivity | exact IH].
  - induction outs as [| i outs IH]; [reflexivity | exact IH].
Qed.

Lemma py_eq_all_never (num : pyval) :
  never_an_outlet num -> py_eq num (PyStr "all") = false.
Proof.
  intros Hn. destruct num; cbn in Hn; try contradiction; try reflexivity.
  cbn [py_eq]. now destruct (string_dec s "all").
Qed.

(** X15.  A float (even one equal to an outlet number), [None] and a
    string other than ['all'] never make a public method use the bus:
    given one of them the method raises at once,
    a [TypeError], the illegal-outlet error or the [KeyError] of an
    unknown product, and the call sends nothing and returns nothing. *)
Theorem only_numbers_reach_the_bus (m : method) (num : pyval) (w : World D) :
  never_an_outlet num ->
  exists e,
    func_of drv m num w = mkRun (Raise e) w [] /\
    (e = TypeError \/ e = OutletException num \/ e = KeyError (idProduct w)) /\
    transfers (tr (public drv m num w)) = [] /\
    (forall res, out (public drv m num w) <> Ok res).
Proof.
  intros Hn.
  assert (H : exists e,
             func_of drv m num w = mkRun (Raise e) w [] /\
             (e = TypeError \/ e = OutletException num \/
              e = KeyError (idProduct w))).
  { rewrite func_of_shape.
    destruct (DEVICE_TYPES !! idProduct w) as [[outs label] |] eqn:Hty.
    - rewrite (bind_pure _ _ _ _ (outlets_known w outs label Hty)).
      destruct (py_in num outs) eqn:Ein.
      + destruct num as [z | b | f | s |];
          try (rewrite py_in_never in Ein; [discriminate | exact Hn |
                                            intros f0; discriminate]);
          try (cbn in Hn; contradiction).
        exists TypeError. split; [| auto].
        now rewrite (bind_fail _ _ _ _ _ _ (single_float_any m f w)).
      + rewrite (py_eq_all_never num Hn). exists (OutletException num). auto.
    - exists (KeyError (idProduct w)). split; [| auto].
      now rewrite (bind_fail _ _ _ _ _ _ (outlets_unknown w Hty)). }
  destruct H as (e & Hf & He). exists e. split; [exact Hf |].
  split; [exact He |].
  destruct (raises_at_once drv m num w e Hf) as (H1 & H2 & _). auto.
Qed.

End AllMore.

(** [toggle('all')] on a device that does not answer: once with a
    release that works, once with a release that raises an error of
    another class. *)
Lemma all_stops_at_first_error_witness :
  (let w := Mock.handle SISPM (Mock.mkState 5 [] false (Ok tt) Mock.serial0) in
   out (toggle_func Mock.driver (PyStr "all") w) = Raise (USBError 110) /\
   out (toggle Mock.driver (PyStr "all") w) = Raise (USBError 110) /\
   length (transfers (tr (toggle Mock.driver (PyStr "all") w))) = 5%nat) /\
  (let w := Mock.handle SISPM
              (Mock.mkState 5 [] false
                 (Raise (OtherError "NotImplementedError")) Mock.serial0) in
   out (toggle_func Mock.driver (PyStr "all") w) = Raise (USBError 110) /\
   out (toggle Mock.driver (PyStr "all") w)
   = Raise (OtherError "NotImplementedError")).
Proof.
  split.
  - intros w.
    destruct (all_stops_at_first_error Mock.driver w Toggle [1; 2; 3; 4]
                "4-socket SiS-PM" (USBError 110) eq_refl eq_refl)
      as (H1 & _ & H3 & _ & H5 & _).
    split; [| split].
    + change (toggle_func Mock.driver) with (func_of Mock.driver Toggle).
      rewrite H1. reflexivity.
    + apply H5. reflexivity.
    + change (toggle Mock.driver) with (public Mock.driver Toggle).
      rewrite H3. reflexivity.
  - intros w.
    destruct (all_stops_at_first_error Mock.driver w Toggle [1; 2; 3; 4]
                "4-socket SiS-PM" (USBError 110) eq_refl eq_refl)
      as (H1 & _ & _ & _ & _ & H6).
    split.
    + change (toggle_func Mock.driver) with (func_of Mock.driver Toggle).
      rewrite H1. reflexivity.
    + apply H6. reflexivity.
Defined.

(** [on(2.0)] and [off(None)] on a four-socket device. *)
Lemma only_numbers_reach_the_bus_witness :
  let w := Mock.handle SISPM Mock.idle in
  transfers (tr (on Mock.driver (PyFloat (S754_finite false 4503599627370496 (-51))) w)) = [] /\
  transfers (tr (off Mock.driver PyNone w)) = [].
Proof.
  intros w. split.
  - destruct (only_numbers_reach_the_bus Mock.driver On
                (PyFloat (S754_finite false 4503599627370496 (-51))) w I)
      as (e & _ & _ & H & _).
    exact H.
  - destruct (only_numbers_reach_the_bus Mock.driver Off PyNone w I)
      as (e & _ & _ & H & _).
    exact H.
Defined.
